(** * Database_Tool: the SQL Server session manager of [database_tool.py]

    A shallow embedding of [find_driver] and of the methods of
    [MSSQLDatabaseManager].  The Python code is effectful: it logs, it reads
    the process environment, it mutates the attributes of [self] and it calls
    into pyodbc, SQLAlchemy and pandas, any of which may raise.  The embedding
    threads an explicit state (attributes of [self], log file, trace of
    library calls) through a state-and-exception monad; the answers of the
    outside world (installed drivers, environment variables, which library
    call raises what) are parameters gathered in an environment record. *)

From Stdlib Require Import ZArith Ascii String List Lia.
From stdpp Require Import base tactics option list strings pretty gmap.

Open Scope string_scope.
Open Scope list_scope.

(** ** Python values *)

(** The constructor arguments are plain data: [None], booleans, integers and
    strings (byte strings here: a [str] is represented by its UTF-8 bytes). *)
Inductive scalar :=
| SNone
| SBool (b : bool)
| SInt (z : Z)
| SStr (s : string).

(** Python truthiness, as used by [if x], [not x] and [x or y]. *)
Definition truthy (x : scalar) : bool :=
  match x with
  | SNone => false
  | SBool b => b
  | SInt z => negb (z =? 0)%Z
  | SStr s => negb (String.eqb s "")
  end.

(** [x or y]: the first operand when it is truthy, the second otherwise. *)
Definition py_or (x y : scalar) : scalar := if truthy x then x else y.

(** [str(x)], which is what an f-string placeholder [{x}] inserts. *)
Definition py_str (x : scalar) : string :=
  match x with
  | SNone => "None"
  | SBool true => "True"
  | SBool false => "False"
  | SInt z => pretty z
  | SStr s => s
  end.

(** ** Strings *)

(** [needle in hay] on [str]: substring test. *)
Fixpoint startswith (needle hay : string) : bool :=
  match needle, hay with
  | EmptyString, _ => true
  | String _ _, EmptyString => false
  | String a n, String b h => Ascii.eqb a b && startswith n h
  end.

Fixpoint str_in (needle hay : string) : bool :=
  startswith needle hay ||
  match hay with
  | EmptyString => false
  | String _ h => str_in needle h
  end.

(** [urllib.parse.quote_plus]: letters, digits and [_.-~] are kept, a space
    becomes [+], every other byte becomes [%XX] in upper-case hexadecimal. *)
Definition between (lo hi n : N) : bool := ((lo <=? n) && (n <=? hi))%N.

Definition always_safe (c : ascii) : bool :=
  let n := N_of_ascii c in
  between 65 90 n || between 97 122 n || between 48 57 n ||
  (n =? 95)%N || (n =? 46)%N || (n =? 45)%N || (n =? 126)%N.

Definition hex_digit (n : N) : ascii :=
  if (n <? 10)%N then ascii_of_N (48 + n) else ascii_of_N (55 + n).

Definition quote_byte (c : ascii) : string :=
  if always_safe c then String c EmptyString
  else if Ascii.eqb c " " then "+"
  else String "%" (String (hex_digit (N_of_ascii c / 16))
                  (String (hex_digit (N_of_ascii c mod 16)) EmptyString)).

Fixpoint quote_plus (s : string) : string :=
  match s with
  | EmptyString => EmptyString
  | String c r => quote_byte c +:+ quote_plus r
  end.

(** [urllib.parse.unquote_plus], the inverse reading used by the receiving
    end of the descriptor ([odbc_connect=...]). *)
Definition hex_value (c : ascii) : option N :=
  let n := N_of_ascii c in
  if between 48 57 n then Some (n - 48)%N
  else if between 65 70 n then Some (n - 55)%N
  else if between 97 102 n then Some (n - 87)%N
  else None.

Fixpoint unquote_plus (s : string) : string :=
  match s with
  | EmptyString => EmptyString
  | String c r =>
      if Ascii.eqb c "+" then String " " (unquote_plus r)
      else if Ascii.eqb c "%" then
        match r with
        | String h (String l r') =>
            match hex_value h, hex_value l with
            | Some x, Some y => String (ascii_of_N (16 * x + y)) (unquote_plus r')
            | _, _ => String c (unquote_plus r)
            end
        | _ => String c (unquote_plus r)
        end
      else String c (unquote_plus r)
  end.

(** ** Exceptions, handles and the outside world *)

(** A raised exception: its class and [str(e)]. *)
Record exn := Exn { exn_class : string; exn_msg : string }.

(** Whether the exception is an instance of [Exception], which is what an
    [except Exception] clause handles.  Of the built-in classes, only
    [BaseException] itself, [KeyboardInterrupt], [SystemExit] and
    [GeneratorExit] are not. *)
Definition is_exception (e : exn) : bool :=
  negb (existsb (String.eqb (exn_class e))
          ["BaseException"; "KeyboardInterrupt"; "SystemExit"; "GeneratorExit"]).

(** Objects handed out by SQLAlchemy are identified by a handle. *)
Definition handle := nat.

(** What an attribute of [self] can hold. *)
Inductive value :=
| VScalar (x : scalar)
| VEngine (h : handle)
| VSession (h : handle)
| VConn (h : handle).

(** The calls the code makes into pyodbc-backed libraries. *)
Inductive call :=
| CreateEngine (url : string) (fast_executemany echo : bool)
| OpenSession (eng : handle)          (* sessionmaker(bind=engine)() *)
| Connect (eng : handle)              (* engine.connect() *)
| Begin (eng : handle)                (* engine.begin().__enter__() *)
| Execute (conn : handle) (stmt : string)
| SessionCommit (sess : handle)       (* session.commit() *)
| SessionClose (sess : handle)        (* session.close() *)
| TxCommit (conn : handle)            (* commit of a per-call transaction *)
| TxRollback (conn : handle)          (* rollback of a per-call transaction *)
| Close (conn : handle)               (* connection.close() *)
| Dispose (eng : handle)              (* engine.dispose() *)
| ReadSql (q : string) (con : value).  (* pandas.read_sql_query(q, con) *)

(** How a call ended: it returned (a fresh handle where it creates an object)
    or it raised. *)
Inductive answer :=
| Returned (h : option handle)
| Raised (e : exn).

Definition event : Type := call * answer.

Inductive level := INFO | ERROR.

Definition logline : Type := level * string.

(** The environment: what is installed, what the process environment holds,
    and which library call raises, given the calls made so far. *)
Record Env := {
  pyodbc_drivers : list string;
  os_environ : gmap string string;
  fault : list event -> call -> option exn
}.

(** The state threaded through the code: [self.__dict__], the lines written
    by the code's own [logger] calls (what the libraries log themselves is
    not part of it), the library calls in order, the next handle. *)
Record State := {
  st_obj : gmap string value;
  st_log : list logline;
  st_events : list event;
  st_next : handle
}.

Definition set_obj (o : gmap string value) (st : State) : State :=
  {| st_obj := o; st_log := st_log st;
     st_events := st_events st; st_next := st_next st |}.

Definition add_log (l : logline) (st : State) : State :=
  {| st_obj := st_obj st; st_log := st_log st ++ [l];
     st_events := st_events st; st_next := st_next st |}.

Definition add_event (ev : event) (st : State) : State :=
  {| st_obj := st_obj st; st_log := st_log st;
     st_events := st_events st ++ [ev]; st_next := st_next st |}.

Definition bump (st : State) : State :=
  {| st_obj := st_obj st; st_log := st_log st;
     st_events := st_events st; st_next := S (st_next st) |}.

(** ** The state-and-exception monad *)

Inductive result (A : Type) :=
| Ok (a : A)
| Raise (e : exn).
Arguments Ok {A} a.
Arguments Raise {A} e.

Definition M (A : Type) : Type := State -> result A * State.

Definition ret {A} (a : A) : M A := fun st => (Ok a, st).

Definition raise {A} (e : exn) : M A := fun st => (Raise e, st).

Definition bind {A B} (m : M A) (k : A -> M B) : M B :=
  fun st =>
    match m st with
    | (Ok a, st') => k a st'
    | (Raise e, st') => (Raise e, st')
    end.

(** [try: m  except: h e], a handler for whatever is raised; this is how a
    context manager sees the exception that leaves its block. *)
Definition try_except {A} (m : M A) (h : exn -> M A) : M A :=
  fun st =>
    match m st with
    | (Ok a, st') => (Ok a, st')
    | (Raise e, st') => h e st'
    end.

(** [try: m  except Exception as e: h e]: the handler runs for instances of
    [Exception] only; anything else goes through untouched. *)
Definition try_except_Exception {A} (m : M A) (h : exn -> M A) : M A :=
  fun st =>
    match m st with
    | (Ok a, st') => (Ok a, st')
    | (Raise e, st') => if is_exception e then h e st' else (Raise e, st')
    end.

(** [m] followed by [cleanup] whatever [m] did, as the exit of a [with]
    block does: an exception of [cleanup] replaces the outcome of [m]. *)
Definition finally {A} (m : M A) (cleanup : M unit) : M A :=
  fun st =>
    match m st with
    | (r, st') =>
        match cleanup st' with
        | (Ok _, st'') => (r, st'')
        | (Raise e, st'') => (Raise e, st'')
        end
    end.

Declare Scope py_scope.
Delimit Scope py_scope with py.
Notation "x <- m ;; k" := (bind m (fun x => k))
  (at level 100, m at next level, right associativity) : py_scope.
Notation "m ;; k" := (bind m (fun _ => k))
  (at level 100, right associativity) : py_scope.
Open Scope py_scope.

(** ** Primitive effects *)

Definition logger_info (msg : string) : M unit :=
  fun st => (Ok tt, add_log (INFO, msg) st).

Definition logger_error (msg : string) : M unit :=
  fun st => (Ok tt, add_log (ERROR, msg) st).

(** [self.name = v] *)
Definition setattr (name : string) (v : value) : M unit :=
  fun st => (Ok tt, set_obj (<[name := v]> (st_obj st)) st).

Definition attribute_error (name : string) : exn :=
  Exn "AttributeError"
      ("'MSSQLDatabaseManager' object has no attribute '" +:+ name +:+ "'").

(** [self.name]: raises [AttributeError] when the attribute was never set. *)
Definition getattr (name : string) : M value :=
  fun st =>
    match st_obj st !! name with
    | Some v => (Ok v, st)
    | None => (Raise (attribute_error name), st)
    end.

(** Calling an engine, session or connection method on a value that is not
    one raises [AttributeError] as well. *)
Definition type_name (v : value) : string :=
  match v with
  | VScalar SNone => "NoneType"
  | VScalar (SBool _) => "bool"
  | VScalar (SInt _) => "int"
  | VScalar (SStr _) => "str"
  | VEngine _ => "Engine"
  | VSession _ => "Session"
  | VConn _ => "Connection"
  end.

Definition no_method (v : value) (meth : string) : exn :=
  Exn "AttributeError"
      ("'" +:+ type_name v +:+ "' object has no attribute '" +:+ meth +:+ "'").

Definition as_engine (meth : string) (v : value) : M handle :=
  match v with VEngine h => ret h | _ => raise (no_method v meth) end.

Definition as_session (meth : string) (v : value) : M handle :=
  match v with VSession h => ret h | _ => raise (no_method v meth) end.

Definition as_conn (meth : string) (v : value) : M handle :=
  match v with VConn h => ret h | _ => raise (no_method v meth) end.

Section Code.

Context (E : Env).

(** A library call that returns nothing of interest: it is recorded with its
    outcome, and raises what the environment says it raises. *)
Definition invoke (c : call) : M unit :=
  fun st =>
    match fault E (st_events st) c with
    | Some e => (Raise e, add_event (c, Raised e) st)
    | None => (Ok tt, add_event (c, Returned None) st)
    end.

(** A library call that creates an object: the object gets the next handle. *)
Definition invoke_new (c : call) : M handle :=
  fun st =>
    match fault E (st_events st) c with
    | Some e => (Raise e, add_event (c, Raised e) st)
    | None =>
        let h := st_next st in
        (Ok h, bump (add_event (c, Returned (Some h)) st))
    end.

(** [os.environ.get(name)] *)
Definition os_environ_get (name : string) : scalar :=
  match os_environ E !! name with
  | Some s => SStr s
  | None => SNone
  end.

(** ** [find_driver] *)

Definition find_driver (db_system : string) : M scalar :=
  if negb (bool_decide (db_system ∈ ["SQL Server"])) then
    logger_error "Invalid database system. Please provide a valid database system name.";;
    ret SNone
  else
    let drivers := filter (fun driver => str_in db_system driver = true)
                          (pyodbc_drivers E) in
    match drivers with
    | _ :: _ => ret (from_option SStr SNone (last drivers))   (* drivers[-1] *)
    | [] => ret SNone
    end.

(** ** [MSSQLDatabaseManager] *)

(** The arguments of [__init__]. *)
Record Profile := {
  p_database : scalar;
  p_server : scalar;
  p_port : scalar;
  p_user : scalar;
  p_password : scalar;
  p_use_trusted_connection : scalar
}.

Definition driver_not_found : string :=
  "ODBC Driver for SQL Server not found. Please install the driver and try again.".

(** The two f-strings of [__init__], before escaping. *)
Definition trusted_string (driver server port database : scalar) : string :=
  "DRIVER=" +:+ py_str driver +:+ ";" +:+
  "SERVER=" +:+ py_str server +:+ "," +:+ py_str port +:+ ";" +:+
  "DATABASE=" +:+ py_str database +:+ ";" +:+
  "Trusted_Connection=yes;".

Definition credential_string
    (driver server port database user password : scalar) : string :=
  "DRIVER=" +:+ py_str driver +:+ ";" +:+
  "SERVER=" +:+ py_str server +:+ "," +:+ py_str port +:+ ";" +:+
  "DATABASE=" +:+ py_str database +:+ ";" +:+
  "UID=" +:+ py_str user +:+ ";" +:+
  "PWD=" +:+ py_str password +:+ ";" +:+
  "Trusted_Connection=no;".

(** [self.params], from the attributes assigned just before it. *)
Definition params_of
    (driver server port database user password trusted : scalar) : string :=
  if truthy trusted then
    quote_plus (trusted_string driver server port database)
  else
    quote_plus (credential_string driver server port database user password).

(** [__init__].  Each [self.x] that the code reads back was assigned a few
    lines above, so the value assigned is used directly. *)
Definition init (p : Profile) : M unit :=
  driver <- find_driver "SQL Server";;
  setattr "driver" (VScalar driver);;
  if negb (truthy driver) then
    logger_error driver_not_found;;
    raise (Exn "Exception" driver_not_found)
  else
    setattr "server" (VScalar (p_server p));;
    setattr "port" (VScalar (p_port p));;
    setattr "database" (VScalar (p_database p));;
    let user := py_or (p_user p) (os_environ_get "SQLUID") in
    setattr "user" (VScalar user);;
    let password := py_or (p_password p) (os_environ_get "SQLPWD") in
    setattr "password" (VScalar password);;
    setattr "use_trusted_connection" (VScalar (p_use_trusted_connection p));;
    let params := params_of driver (p_server p) (p_port p) (p_database p)
                            user password (p_use_trusted_connection p) in
    setattr "params" (VScalar (SStr params));;
    try_except_Exception
      (engine <- invoke_new
                   (CreateEngine ("mssql+pyodbc:///?odbc_connect=" +:+ params)
                                 true true);;
       setattr "engine" (VEngine engine);;
       session <- invoke_new (OpenSession engine);;
       setattr "session" (VSession session);;
       conn <- invoke_new (Connect engine);;
       setattr "conn" (VConn conn);;
       logger_info "DB Connected!")
      (fun e =>
         logger_error ("Connection error: " +:+ exn_msg e);;
         raise e).

(** [MSSQLDatabaseManager(...)]: a new object with no attribute, then
    [__init__] on it. *)
Definition construct (p : Profile) : M unit :=
  fun st => init p (set_obj ∅ st).

(** [with engine.begin() as conn: body].  SQLAlchemy's contract: a connection
    is taken and a transaction begun on it; when the block ends normally the
    transaction is committed, when the block (or that commit) raises it is
    rolled back and the exception goes on; the connection is closed in every
    case. *)
Definition with_engine_begin {A} (engine : handle) (body : handle -> M A) : M A :=
  conn <- invoke_new (Begin engine);;
  finally
    (try_except
       (a <- body conn;;
        invoke (TxCommit conn);;
        ret a)
       (fun e => invoke (TxRollback conn);; raise e))
    (invoke (Close conn)).

(** [run_query].  [text(str(query))] of a string is that string as a
    statement; the value returned is the handle of the result. *)
Definition run_query (query : string) (commit : bool) : M handle :=
  logger_info ("Executing query: " +:+ query);;
  try_except_Exception
    (engine <- (v <- getattr "engine";; as_engine "begin" v);;
     with_engine_begin engine (fun conn =>
       result <- invoke_new (Execute conn query);;
       (if commit then
          session <- (v <- getattr "session";; as_session "commit" v);;
          invoke (SessionCommit session)
        else ret tt);;
       logger_info "Query executed successfully!";;
       ret result))
    (fun e =>
       logger_error ("Query execution error: " +:+ exn_msg e);;
       raise e).

(** [save_query_df]: the handle of the DataFrame that pandas returns. *)
Definition save_query_df (query : string) : M handle :=
  engine <- getattr "engine";;
  df <- invoke_new (ReadSql query engine);;
  ret df.

(** [disconnect] *)
Definition disconnect : M unit :=
  try_except_Exception
    (conn <- (v <- getattr "conn";; as_conn "close" v);;
     invoke (Close conn);;
     engine <- (v <- getattr "engine";; as_engine "dispose" v);;
     invoke (Dispose engine);;
     logger_info "DB Disconnected!")
    (fun e =>
       logger_error ("Disconnection error: " +:+ exn_msg e);;
       raise e).

End Code.

(** ** Concrete scenarios used by the examples below *)

Definition no_fault : list event -> call -> option exn := fun _ _ => None.

Definition fresh_state : State :=
  {| st_obj := ∅; st_log := []; st_events := []; st_next := 0 |}.

(** A machine with two SQL Server drivers, as in the specification. *)
Definition env_two_drivers : Env :=
  {| pyodbc_drivers := ["SQLite3 ODBC Driver";
                        "ODBC Driver 13 for SQL Server";
                        "ODBC Driver 17 for SQL Server"];
     os_environ := {["SQLUID" := "sa"; "SQLPWD" := "s3cret"]};
     fault := no_fault |}.

(** A machine without any SQL Server driver. *)
Definition env_no_driver : Env :=
  {| pyodbc_drivers := ["SQLite3 ODBC Driver"; "PostgreSQL Unicode"];
     os_environ := ∅;
     fault := no_fault |}.

Definition syntax_error : exn :=
  Exn "ProgrammingError" "Incorrect syntax near 'SELEC'.".

(** A server that rejects every statement. *)
Definition env_bad_sql : Env :=
  {| pyodbc_drivers := ["ODBC Driver 17 for SQL Server"];
     os_environ := ∅;
     fault := fun _ c =>
                match c with
                | Execute _ _ => Some syntax_error
                | ReadSql _ _ => Some syntax_error
                | _ => None
                end |}.

Definition profile_sales (trusted : bool) : Profile :=
  {| p_database := SStr "Sales"; p_server := SStr "h"; p_port := SInt 1433;
     p_user := SStr "u"; p_password := SStr "p";
     p_use_trusted_connection := SBool trusted |}.

(** A trusted profile whose database name contains separators and keys. *)
Definition profile_injected : Profile :=
  {| p_database := SStr "Sales;UID=sa;PWD=hunter2"; p_server := SStr "h";
     p_port := SInt 1433; p_user := SNone; p_password := SNone;
     p_use_trusted_connection := SBool true |}.

Definition profile_empty_credentials : Profile :=
  {| p_database := SStr "Sales"; p_server := SStr "h"; p_port := SInt 1433;
     p_user := SStr ""; p_password := SStr "";
     p_use_trusted_connection := SBool false |}.

(** The manager after a successful construction on [env_two_drivers], and on
    [env_bad_sql]. *)
Definition connected_state : State :=
  (construct env_two_drivers (profile_sales false) fresh_state).2.

Definition rejecting_state : State :=
  (construct env_bad_sql (profile_sales false) fresh_state).2.

(** A server on which the commit of every per-call transaction fails. *)
Definition deadlock : exn := Exn "OperationalError" "Transaction was deadlocked.".

Definition env_bad_commit : Env :=
  {| pyodbc_drivers := ["ODBC Driver 17 for SQL Server"];
     os_environ := ∅;
     fault := fun _ c => match c with TxCommit _ => Some deadlock | _ => None end |}.

Definition deadlocked_state : State :=
  (construct env_bad_commit (profile_sales false) fresh_state).2.

(** ** Specifications the code is compared with *)

(** [needle] occurs in [hay]. *)
Definition occurs_in (needle hay : string) : Prop :=
  exists a b, hay = a +:+ needle +:+ b.

(** What discovery settles on, from the list of installed drivers: the last
    name that contains the family, [None] when there is none. *)
Definition last_match (family : string) (installed : list string) : scalar :=
  match last (filter (fun d => str_in family d = true) installed) with
  | Some d => SStr d
  | None => SNone
  end.

(** An ODBC connection string is a sequence of [key=value;] fields. *)
Definition odbc_render (fields : list (string * string)) : string :=
  foldr (fun kv rest => kv.1 +:+ "=" +:+ kv.2 +:+ ";" +:+ rest) "" fields.

(** The fields the specification gives to the descriptor: driver, server and
    port, database, then either the trusted-connection marker alone or the
    credentials and the non-trusted marker. *)
Definition descriptor_fields
    (driver server port database user password trusted : scalar)
    : list (string * string) :=
  [("DRIVER", py_str driver);
   ("SERVER", py_str server +:+ "," +:+ py_str port);
   ("DATABASE", py_str database)] ++
  (if truthy trusted then [("Trusted_Connection", "yes")]
   else [("UID", py_str user); ("PWD", py_str password);
         ("Trusted_Connection", "no")]).

(** The line an [except Exception] clause logs for [e]: written when [e] is
    an [Exception], not written otherwise. *)
Definition handled (e : exn) (l : logline) : list logline :=
  if is_exception e then [l] else [].

(** The log lines of [run_query]. *)
Definition attempt_line (q : string) : logline := (INFO, "Executing query: " +:+ q).
Definition success_line : logline := (INFO, "Query executed successfully!").
Definition error_line (e : exn) : logline :=
  (ERROR, "Query execution error: " +:+ exn_msg e).

(** Leaving the per-call transaction [c] after exception [e]: the rollback,
    then the close; an exception of either replaces the one in flight. *)
Inductive unwind (c : handle) (e : exn) : list event -> exn -> Prop :=
| unwind_clean :
    unwind c e [(TxRollback c, Returned None); (Close c, Returned None)] e
| unwind_rollback_raises e1 :
    unwind c e [(TxRollback c, Raised e1); (Close c, Returned None)] e1
| unwind_close_raises e2 :
    unwind c e [(TxRollback c, Returned None); (Close c, Raised e2)] e2
| unwind_both_raise e1 e2 :
    unwind c e [(TxRollback c, Raised e1); (Close c, Raised e2)] e2.

(** The call on the session made by [if commit: self.session.commit()]. *)
Definition commit_events (commit : bool) (s : handle) : list event :=
  if commit then [(SessionCommit s, Returned None)] else [].

(** Every way a call [run_query(q, commit)] can go, on an object with
    attributes [o] when the next free handle is [n]: its outcome, the library
    calls it makes, and the log lines it writes. *)
Inductive run_query_path (o : gmap string value) (n : handle)
    (q : string) (commit : bool)
    : result handle -> list event -> list logline -> Prop :=
| rq_no_engine e :
    (o !! "engine" = None /\ e = attribute_error "engine") \/
    (exists v, o !! "engine" = Some v /\ (forall g, v <> VEngine g) /\
               e = no_method v "begin") ->
    run_query_path o n q commit (Raise e) []
      (attempt_line q :: handled e (error_line e))
| rq_begin_raises g e :
    o !! "engine" = Some (VEngine g) ->
    run_query_path o n q commit (Raise e)
      [(Begin g, Raised e)]
      (attempt_line q :: handled e (error_line e))
| rq_execute_raises g e evs e' :
    o !! "engine" = Some (VEngine g) ->
    unwind n e evs e' ->
    run_query_path o n q commit (Raise e')
      ([(Begin g, Returned (Some n)); (Execute n q, Raised e)] ++ evs)
      (attempt_line q :: handled e' (error_line e'))
| rq_no_session g e evs e' :
    o !! "engine" = Some (VEngine g) ->
    commit = true ->
    (o !! "session" = None /\ e = attribute_error "session") \/
    (exists v, o !! "session" = Some v /\ (forall s, v <> VSession s) /\
               e = no_method v "commit") ->
    unwind n e evs e' ->
    run_query_path o n q commit (Raise e')
      ([(Begin g, Returned (Some n)); (Execute n q, Returned (Some (S n)))]
       ++ evs)
      (attempt_line q :: handled e' (error_line e'))
| rq_session_commit_raises g s e evs e' :
    o !! "engine" = Some (VEngine g) ->
    commit = true ->
    o !! "session" = Some (VSession s) ->
    unwind n e evs e' ->
    run_query_path o n q commit (Raise e')
      ([(Begin g, Returned (Some n)); (Execute n q, Returned (Some (S n)));
        (SessionCommit s, Raised e)] ++ evs)
      (attempt_line q :: handled e' (error_line e'))
| rq_tx_commit_raises g s e evs e' :
    o !! "engine" = Some (VEngine g) ->
    (commit = true -> o !! "session" = Some (VSession s)) ->
    unwind n e evs e' ->
    run_query_path o n q commit (Raise e')
      ([(Begin g, Returned (Some n)); (Execute n q, Returned (Some (S n)))]
       ++ commit_events commit s ++ [(TxCommit n, Raised e)] ++ evs)
      (attempt_line q :: success_line :: handled e' (error_line e'))
| rq_close_raises g s e :
    o !! "engine" = Some (VEngine g) ->
    (commit = true -> o !! "session" = Some (VSession s)) ->
    run_query_path o n q commit (Raise e)
      ([(Begin g, Returned (Some n)); (Execute n q, Returned (Some (S n)))]
       ++ commit_events commit s
       ++ [(TxCommit n, Returned None); (Close n, Raised e)])
      (attempt_line q :: success_line :: handled e (error_line e))
| rq_returns g s :
    o !! "engine" = Some (VEngine g) ->
    (commit = true -> o !! "session" = Some (VSession s)) ->
    run_query_path o n q commit (Ok (S n))
      ([(Begin g, Returned (Some n)); (Execute n q, Returned (Some (S n)))]
       ++ commit_events commit s
       ++ [(TxCommit n, Returned None); (Close n, Returned None)])
      [attempt_line q; success_line].

(** Every way a call [disconnect()] can go: outcome, library calls, log. *)
Definition disconnect_error_line (e : exn) : logline :=
  (ERROR, "Disconnection error: " +:+ exn_msg e).

Inductive disconnect_path (o : gmap string value)
    : result unit -> list event -> list logline -> Prop :=
| dc_no_conn e :
    (o !! "conn" = None /\ e = attribute_error "conn") \/
    (exists v, o !! "conn" = Some v /\ (forall c, v <> VConn c) /\
               e = no_method v "close") ->
    disconnect_path o (Raise e) [] (handled e (disconnect_error_line e))
| dc_close_raises c e :
    o !! "conn" = Some (VConn c) ->
    disconnect_path o (Raise e) [(Close c, Raised e)]
      (handled e (disconnect_error_line e))
| dc_no_engine c e :
    o !! "conn" = Some (VConn c) ->
    (o !! "engine" = None /\ e = attribute_error "engine") \/
    (exists v, o !! "engine" = Some v /\ (forall g, v <> VEngine g) /\
               e = no_method v "dispose") ->
    disconnect_path o (Raise e) [(Close c, Returned None)]
      (handled e (disconnect_error_line e))
| dc_dispose_raises c g e :
    o !! "conn" = Some (VConn c) ->
    o !! "engine" = Some (VEngine g) ->
    disconnect_path o (Raise e)
      [(Close c, Returned None); (Dispose g, Raised e)]
      (handled e (disconnect_error_line e))
| dc_returns c g :
    o !! "conn" = Some (VConn c) ->
    o !! "engine" = Some (VEngine g) ->
    disconnect_path o (Ok tt)
      [(Close c, Returned None); (Dispose g, Returned None)]
      [(INFO, "DB Disconnected!")].

(** Every way a call [save_query_df(q)] can go. *)
Inductive save_query_df_path (o : gmap string value) (n : handle) (q : string)
    : result handle -> list event -> list logline -> Prop :=
| sq_no_engine :
    o !! "engine" = None ->
    save_query_df_path o n q (Raise (attribute_error "engine")) [] []
| sq_read_raises v e :
    o !! "engine" = Some v ->
    save_query_df_path o n q (Raise e) [(ReadSql q v, Raised e)] []
| sq_returns v :
    o !! "engine" = Some v ->
    save_query_df_path o n q (Ok n) [(ReadSql q v, Returned (Some n))] [].

(** The attributes [__init__] assigns before it opens anything, for the
    driver [d] it found. *)
Definition user_of (E : Env) (p : Profile) : scalar :=
  py_or (p_user p) (os_environ_get E "SQLUID").

Definition password_of (E : Env) (p : Profile) : scalar :=
  py_or (p_password p) (os_environ_get E "SQLPWD").

Definition descriptor (E : Env) (p : Profile) (d : scalar) : string :=
  params_of d (p_server p) (p_port p) (p_database p)
            (user_of E p) (password_of E p) (p_use_trusted_connection p).

Definition profile_attributes (E : Env) (p : Profile) (d : scalar)
    : gmap string value :=
  <["params" := VScalar (SStr (descriptor E p d))]>
  (<["use_trusted_connection" := VScalar (p_use_trusted_connection p)]>
  (<["password" := VScalar (password_of E p)]>
  (<["user" := VScalar (user_of E p)]>
  (<["database" := VScalar (p_database p)]>
  (<["port" := VScalar (p_port p)]>
  (<["server" := VScalar (p_server p)]>
  (<["driver" := VScalar d]> ∅))))))).

Definition engine_url (E : Env) (p : Profile) (d : scalar) : call :=
  CreateEngine ("mssql+pyodbc:///?odbc_connect=" +:+ descriptor E p d) true true.

Definition connection_error_line (e : exn) : logline :=
  (ERROR, "Connection error: " +:+ exn_msg e).

(** Every way a construction can go when discovery settles on [d] and the
    next free handle is [n]: outcome, attributes of the object, library
    calls, log lines. *)
Inductive construct_path (E : Env) (p : Profile) (d : scalar) (n : handle)
    : result unit -> gmap string value -> list event -> list logline -> Prop :=
| cs_no_driver :
    truthy d = false ->
    construct_path E p d n
      (Raise (Exn "Exception" driver_not_found))
      {["driver" := VScalar d]} [] [(ERROR, driver_not_found)]
| cs_create_engine_raises e :
    truthy d = true ->
    construct_path E p d n (Raise e)
      (profile_attributes E p d)
      [(engine_url E p d, Raised e)]
      (handled e (connection_error_line e))
| cs_session_raises e :
    truthy d = true ->
    construct_path E p d n (Raise e)
      (<["engine" := VEngine n]> (profile_attributes E p d))
      [(engine_url E p d, Returned (Some n)); (OpenSession n, Raised e)]
      (handled e (connection_error_line e))
| cs_connect_raises e :
    truthy d = true ->
    construct_path E p d n (Raise e)
      (<["session" := VSession (S n)]>
         (<["engine" := VEngine n]> (profile_attributes E p d)))
      [(engine_url E p d, Returned (Some n));
       (OpenSession n, Returned (Some (S n))); (Connect n, Raised e)]
      (handled e (connection_error_line e))
| cs_returns :
    truthy d = true ->
    construct_path E p d n (Ok tt)
      (<["conn" := VConn (S (S n))]>
         (<["session" := VSession (S n)]>
            (<["engine" := VEngine n]> (profile_attributes E p d))))
      [(engine_url E p d, Returned (Some n));
       (OpenSession n, Returned (Some (S n)));
       (Connect n, Returned (Some (S (S n))))]
      [(INFO, "DB Connected!")].

(** *** Reading a trace *)

(** The library calls a computation adds to the trace. *)
Definition calls_of {A} (m : M A) (st : State) : list event :=
  drop (length (st_events st)) (st_events (m st).2).

(** The log lines a computation adds to the log. *)
Definition lines_of {A} (m : M A) (st : State) : list logline :=
  drop (length (st_log st)) (st_log (m st).2).

(** The sessions on which [commit()] was invoked, in order. *)
Definition session_commits (evs : list event) : list handle :=
  omap (fun ev : event =>
          match ev.1 with SessionCommit s => Some s | _ => None end) evs.

(** The calls made on a session, whatever the method. *)
Definition on_session (ev : event) : bool :=
  match ev.1 with SessionCommit _ | SessionClose _ | OpenSession _ => true | _ => false end.

(** A call that closes a session. *)
Definition closes_session (ev : event) : bool :=
  match ev.1 with SessionClose _ => true | _ => false end.

(** A call that releases what the manager with attributes [o] holds: [close]
    on its connection or [dispose] on its engine. *)
Definition releases (o : gmap string value) (ev : event) : Prop :=
  (exists c, o !! "conn" = Some (VConn c) /\ ev.1 = Close c) \/
  (exists g, o !! "engine" = Some (VEngine g) /\ ev.1 = Dispose g).

(** Whether a statement was executed (the call returned). *)
Definition executed (evs : list event) : bool :=
  existsb (fun ev : event =>
             match ev with (Execute _ _, Returned _) => true | _ => false end) evs.

(** The number of objects created by the calls of a trace. *)
Definition creates (ev : event) : bool :=
  match ev.2 with Returned (Some _) => true | _ => false end.

Definition allocs (evs : list event) : nat := length (List.filter creates evs).

(** A computation [m] run from [st] goes one of the ways [P] lists: [P] holds
    of its outcome, of the calls it adds to the trace and of the lines it adds
    to the log; it assigns no attribute, and takes one handle per object
    created. *)
Definition follows {A} (m : M A) (st : State)
    (P : result A -> list event -> list logline -> Prop) : Prop :=
  exists evs lg,
    P (m st).1 evs lg /\
    st_events (m st).2 = st_events st ++ evs /\
    st_log (m st).2 = st_log st ++ lg /\
    st_obj (m st).2 = st_obj st /\
    st_next (m st).2 = st_next st + allocs evs.

(** *** Handles in use *)

Definition value_handle (v : value) : option handle :=
  match v with
  | VScalar _ => None
  | VEngine h | VSession h | VConn h => Some h
  end.

Definition call_handles (c : call) : list handle :=
  match c with
  | CreateEngine _ _ _ => []
  | OpenSession g | Connect g | Begin g | Dispose g => [g]
  | Execute c _ | TxCommit c | TxRollback c | Close c => [c]
  | SessionCommit s | SessionClose s => [s]
  | ReadSql _ v => option_list (value_handle v)
  end.

Definition answer_handles (a : answer) : list handle :=
  match a with
  | Returned (Some h) => [h]
  | _ => []
  end.

Definition event_handles (ev : event) : list handle :=
  call_handles ev.1 ++ answer_handles ev.2.

(** Handle [h] names nothing yet: no attribute holds it, no call used or
    returned it. *)
Definition fresh (h : handle) (st : State) : Prop :=
  (forall k v, st_obj st !! k = Some v -> value_handle v <> Some h) /\
  Forall (fun ev => h ∉ event_handles ev) (st_events st).

(** Every handle mentioned by the calls [evs] is below [n]. *)
Definition bounded (n : handle) (evs : list event) : Prop :=
  Forall (fun ev => Forall (fun h => h < n) (event_handles ev)) evs.

(** Handles are handed out in increasing order. *)
Definition wf (st : State) : Prop :=
  (forall k v h, st_obj st !! k = Some v -> value_handle v = Some h ->
                 h < st_next st) /\
  bounded (st_next st) (st_events st).

(** Whether the commit of a per-call transaction was invoked. *)
Definition tx_commit_invoked (evs : list event) : bool :=
  existsb (fun ev : event => match ev.1 with TxCommit _ => true | _ => false end) evs.

(** The manager holds its engine, its session and its connection. *)
Definition ready (st : State) : Prop :=
  exists g s c,
    st_obj st !! "engine" = Some (VEngine g) /\
    st_obj st !! "session" = Some (VSession s) /\
    st_obj st !! "conn" = Some (VConn c).

(** *** The life of a manager *)

Inductive request :=
| RunQuery (q : string) (commit : bool)
| SaveQueryDf (q : string)
| Disconnect.

Definition perform (E : Env) (r : request) (st : State) : State :=
  match r with
  | RunQuery q commit => (run_query E q commit st).2
  | SaveQueryDf q => (save_query_df E q st).2
  | Disconnect => (disconnect E st).2
  end.

(** The states a caller can observe: a construction that returned, then any
    sequence of method calls, whether they return or raise. *)
Inductive reachable (E : Env) : State -> Prop :=
| reach_construct p st :
    wf st ->
    (construct E p st).1 = Ok tt ->
    reachable E (construct E p st).2
| reach_perform r st :
    reachable E st ->
    reachable E (perform E r st).

(** *** Further readings of strings, traces and environments *)

(** The characters an escaped string is made of: the ones [quote_plus] keeps,
    [+] for a space and [%] with its two hexadecimal digits. *)
Definition url_safe (c : ascii) : bool :=
  always_safe c || Ascii.eqb c "+" || Ascii.eqb c "%".

Fixpoint string_forallb (f : ascii -> bool) (s : string) : bool :=
  match s with
  | EmptyString => true
  | String c r => f c && string_forallb f r
  end.

(** The exceptions raised by the calls of a trace, in order. *)
Definition raised (evs : list event) : list exn :=
  omap (fun ev : event => match ev.2 with Raised e => Some e | _ => None end) evs.

(** Counting the calls of one kind in a trace. *)
Definition is_begin (ev : event) : bool :=
  match ev.1 with Begin _ => true | _ => false end.

Definition is_close (ev : event) : bool :=
  match ev.1 with Close _ => true | _ => false end.

Definition is_execute (ev : event) : bool :=
  match ev.1 with Execute _ _ => true | _ => false end.

Definition is_release (ev : event) : bool :=
  match ev.1 with Close _ | Dispose _ => true | _ => false end.

Definition count (f : event -> bool) (evs : list event) : nat :=
  length (List.filter f evs).

(** Whether the commit of a per-call transaction returned, and whether a
    rollback was invoked. *)
Definition tx_committed (evs : list event) : bool :=
  existsb (fun ev : event =>
             match ev with (TxCommit _, Returned _) => true | _ => false end) evs.

Definition rollback_invoked (evs : list event) : bool :=
  existsb (fun ev : event =>
             match ev.1 with TxRollback _ => true | _ => false end) evs.

(** Whether the session commit raised. *)
Definition session_commit_raised (evs : list event) : bool :=
  existsb (fun ev : event =>
             match ev with (SessionCommit _, Raised _) => true | _ => false end) evs.

(** An environment in which no library call raises. *)
Definition fault_free (E : Env) : Prop := forall h c, fault E h c = None.

(** The same machine with one more driver at the end of the listing. *)
Definition install (d : string) (E : Env) : Env :=
  {| pyodbc_drivers := pyodbc_drivers E ++ [d];
     os_environ := os_environ E;
     fault := fault E |}.

(** What the trace may say about the connection [c] and the session [s] the
    manager holds: they were opened, and [c] was closed, [s] committed;
    nothing else mentions them. *)
Definition own_handles_unused (c s : handle) (ev : event) : Prop :=
  (c ∈ event_handles ev ->
   ev.1 = Close c \/ exists g, ev = (Connect g, Returned (Some c))) /\
  (s ∈ event_handles ev ->
   ev.1 = SessionCommit s \/ exists g, ev = (OpenSession g, Returned (Some s))).

(** The three handles a construction that returned took, in a row. *)
Definition layout (n : handle) (st : State) : Prop :=
  st_obj st !! "engine" = Some (VEngine n) /\
  st_obj st !! "session" = Some (VSession (S n)) /\
  st_obj st !! "conn" = Some (VConn (S (S n))) /\
  S (S n) < st_next st.

(** The user presses Ctrl-C while a statement runs. *)
Definition interrupt : exn := Exn "KeyboardInterrupt" "".

Definition env_interrupted : Env :=
  {| pyodbc_drivers := ["ODBC Driver 17 for SQL Server"];
     os_environ := ∅;
     fault := fun _ c => match c with Execute _ _ => Some interrupt | _ => None end |}.

Definition interrupted_state : State :=
  (construct env_interrupted (profile_sales false) fresh_state).2.

(** A server that cannot be reached: the engine and the session are made,
    the connection attempt times out. *)
Definition login_timeout : exn := Exn "OperationalError" "Login timeout expired".

Definition env_unreachable : Env :=
  {| pyodbc_drivers := ["ODBC Driver 17 for SQL Server"];
     os_environ := ∅;
     fault := fun _ c => match c with Connect _ => Some login_timeout | _ => None end |}.

(** A manager that was constructed, ran a query and was disconnected. *)
Definition disconnected_state : State :=
  perform env_two_drivers Disconnect
    (perform env_two_drivers (RunQuery "SELECT 1" true) connected_state).

(** * Properties *)

(** ** Strings *)

Lemma startswith_spec needle hay :
  startswith needle hay = true <-> exists b, hay = needle +:+ b.
Proof.
  revert hay. induction needle as [|a n IH]; intros hay; simpl.
  - split; [intros _; by exists hay | done].
  - destruct hay as [|b h]; simpl.
    + split; [done | intros [? ?]; discriminate].
    + rewrite andb_true_iff, Ascii.eqb_eq, IH. split.
      * intros [-> [t ->]]. by exists t.
      * intros [t Ht]. injection Ht as -> ->. split; [done | by exists t].
Qed.

Lemma str_in_spec needle hay :
  str_in needle hay = true <-> occurs_in needle hay.
Proof.
  unfold occurs_in. induction hay as [|c h IH]; simpl.
  - rewrite orb_false_r, startswith_spec. split.
    + intros [b Hb]. by exists "", b.
    + intros [[|? a] [b Hb]]; [by exists b | discriminate].
  - rewrite orb_true_iff, startswith_spec, IH. split.
    + intros [[b Hb] | (a & b & ->)].
      * by exists "", b.
      * by exists (String c a), b.
    + intros [[|x a] [b Hb]]; simpl in Hb.
      * left. by exists b.
      * right. injection Hb as -> ->. by exists a, b.
Qed.

(** ** Running the code symbolically *)

Lemma is_exception_attribute_error (name : string) :
  is_exception (attribute_error name) = true.
Proof. reflexivity. Qed.

Lemma is_exception_no_method (v : value) (meth : string) :
  is_exception (no_method v meth) = true.
Proof. reflexivity. Qed.

Lemma handled_true (e : exn) (l : logline) :
  is_exception e = true -> handled e l = [l].
Proof. unfold handled. by intros ->. Qed.

Lemma handled_false (e : exn) (l : logline) :
  is_exception e = false -> handled e l = [].
Proof. unfold handled. by intros ->. Qed.

Ltac run_unfold :=
  unfold run_query, disconnect, save_query_df, with_engine_begin,
    bind, try_except, try_except_Exception, finally, ret, raise,
    invoke, invoke_new,
    getattr, as_engine, as_session, as_conn, logger_info, logger_error.

Ltac run_simpl :=
  run_unfold; cbn -[String.append attribute_error no_method is_exception];
  rewrite ?is_exception_attribute_error, ?is_exception_no_method;
  cbn -[String.append attribute_error no_method is_exception].

(** One step: case on what the environment answers to the next library call,
    or on what the next attribute read finds. *)
Ltac run_step :=
  match goal with
  | |- context [fault ?E ?h ?c] =>
      lazymatch goal with
      | |- context [match fault E h c with _ => _ end] =>
          let e := fresh "e" in
          let F := fresh "F" in
          destruct (fault E h c) as [e|] eqn:F
      end
  | |- context [match ?o !! ?k with _ => _ end] =>
      let v := fresh "v" in
      let L := fresh "L" in
      destruct (o !! k) as [v|] eqn:L; [destruct v|]
  | |- context [is_exception ?e] =>
      lazymatch goal with
      | |- context [if is_exception e then _ else _] =>
          let X := fresh "X" in
          destruct (is_exception e) eqn:X
      end
  end; run_simpl.

(** Once the run is over: the trace and the log are read off the final
    state, which leaves a goal about the path taken. *)
Ltac run_done :=
  rewrite <- ?app_assoc;
  cbn -[String.append attribute_error no_method is_exception];
  eexists _, _; (split; last first);
  [ split_and!;
    first [ reflexivity | symmetry; apply app_nil_r | cbn; lia ] | ].

(** The lines of a path, once it is known whether the handler ran. *)
Ltac handled_lines :=
  repeat match goal with
         | H : is_exception ?e = true |- context [handled ?e ?l] =>
             rewrite (handled_true e l H)
         | H : is_exception ?e = false |- context [handled ?e ?l] =>
             rewrite (handled_false e l H)
         | |- context [handled (attribute_error ?n) ?l] =>
             rewrite (handled_true (attribute_error n) l eq_refl)
         | |- context [handled (no_method ?v ?m) ?l] =>
             rewrite (handled_true (no_method v m) l eq_refl)
         end;
  reflexivity.

Ltac bad_attribute :=
  first [ left; split; [eassumption | reflexivity]
        | right; eexists; split_and!; [eassumption | congruence | reflexivity] ].

Lemma run_query_path_lines o n q commit r evs lg lg' :
  run_query_path o n q commit r evs lg -> lg = lg' ->
  run_query_path o n q commit r evs lg'.
Proof. by intros ? <-. Qed.

Lemma disconnect_path_lines o r evs lg lg' :
  disconnect_path o r evs lg -> lg = lg' -> disconnect_path o r evs lg'.
Proof. by intros ? <-. Qed.

Lemma construct_path_lines E p d n r o evs lg lg' :
  construct_path E p d n r o evs lg -> lg = lg' ->
  construct_path E p d n r o evs lg'.
Proof. by intros ? <-. Qed.

Section Paths.

Context (E : Env).

Lemma run_query_follows q commit st :
  follows (run_query E q commit) st
          (run_query_path (st_obj st) (st_next st) q commit).
Proof.
  unfold follows. run_simpl. destruct commit; repeat run_step; run_done.
  all: eapply run_query_path_lines;
    [ first
        [ solve [ econstructor; eauto using unwind; bad_attribute ]
        | match goal with
          | L : _ !! "session" = Some (VSession ?s)
            |- run_query_path ?o ?n _ ?c _ _ _ =>
              solve [ eapply (rq_tx_commit_raises o n _ c _ s);
                      eauto using unwind
                    | eapply (rq_close_raises o n _ c _ s); eauto
                    | eapply (rq_returns o n _ c _ s); eauto ]
          | |- run_query_path ?o ?n _ ?c _ _ _ =>
              solve [ eapply (rq_tx_commit_raises o n _ c _ 0);
                      eauto using unwind; done
                    | eapply (rq_close_raises o n _ c _ 0); eauto; done
                    | eapply (rq_returns o n _ c _ 0); eauto; done ]
          end ]
    | handled_lines ].
Qed.

Lemma disconnect_follows st :
  follows (disconnect E) st (disconnect_path (st_obj st)).
Proof.
  unfold follows. run_simpl. repeat run_step; run_done.
  all: eapply disconnect_path_lines;
    [ solve [ econstructor; eauto; bad_attribute ] | handled_lines ].
Qed.

Lemma save_query_df_follows q st :
  follows (save_query_df E q) st
          (save_query_df_path (st_obj st) (st_next st) q).
Proof.
  unfold follows. run_simpl.
  destruct (st_obj st !! "engine") as [v|] eqn:L; run_simpl;
    [destruct (fault E (st_events st) (ReadSql q v)) eqn:F; run_simpl|];
    run_done; econstructor; eauto.
Qed.

Lemma find_driver_sql_server st :
  find_driver E "SQL Server" st =
  (Ok (last_match "SQL Server" (pyodbc_drivers E)), st).
Proof.
  unfold find_driver, last_match.
  rewrite bool_decide_eq_true_2 by (by rewrite list_elem_of_singleton).
  cbn [negb].
  destruct (filter _ (pyodbc_drivers E)) as [|d l] eqn:K; [done|].
  unfold ret. by destruct (last (d :: l)).
Qed.

Lemma construct_follows p st :
  exists evs lg,
    construct_path E p (last_match "SQL Server" (pyodbc_drivers E)) (st_next st)
      (construct E p st).1 (st_obj (construct E p st).2) evs lg /\
    st_events (construct E p st).2 = st_events st ++ evs /\
    st_log (construct E p st).2 = st_log st ++ lg /\
    st_next (construct E p st).2 = st_next st + allocs evs.
Proof.
  unfold construct, init, bind. rewrite find_driver_sql_server.
  set (d := last_match _ _).
  unfold setattr at 1. destruct (truthy d) eqn:T; cbn [negb].
  - unfold setattr. run_simpl. repeat run_step; run_done.
    all: eapply construct_path_lines; [by econstructor | handled_lines].
  - run_simpl. run_done. by econstructor.
Qed.

End Paths.

(** What [follows] says about the calls and the lines a computation adds. *)
Lemma follows_read {A} (m : M A) st P :
  follows m st P ->
  P (m st).1 (calls_of m st) (lines_of m st) /\
  st_events (m st).2 = st_events st ++ calls_of m st /\
  st_log (m st).2 = st_log st ++ lines_of m st /\
  st_obj (m st).2 = st_obj st /\
  st_next (m st).2 = st_next st + allocs (calls_of m st).
Proof.
  intros (evs & lg & HP & Hev & Hlg & Ho & Hn).
  unfold calls_of, lines_of. rewrite Hev, Hlg, !drop_app_length. done.
Qed.

(** ** Driver discovery *)

Lemma filter_str_in_spec (family : string) (installed : list string) (d : string) :
  d ∈ filter (fun d => str_in family d = true) installed <->
  d ∈ installed /\ occurs_in family d.
Proof. rewrite list_elem_of_filter, str_in_spec. tauto. Qed.

(** C4. For the family "SQL Server", discovery keeps exactly the installed
    names that contain the family, in their order, and returns the last one
    kept, or [None] when none is kept, whatever is installed; it writes no
    log line.  With drivers 13 and 17 installed it returns driver 17. *)
Theorem find_driver_returns_last_match (E : Env) (st : State) :
  let kept := filter (fun d => str_in "SQL Server" d = true) (pyodbc_drivers E) in
  (forall d, d ∈ kept <-> d ∈ pyodbc_drivers E /\ occurs_in "SQL Server" d) /\
  kept `sublist_of` pyodbc_drivers E /\
  find_driver E "SQL Server" st =
    (Ok (match last kept with Some d => SStr d | None => SNone end), st) /\
  find_driver
    {| pyodbc_drivers := ["ODBC Driver 13 for SQL Server";
                          "ODBC Driver 17 for SQL Server"];
       os_environ := os_environ E; fault := fault E |}
    "SQL Server" st = (Ok (SStr "ODBC Driver 17 for SQL Server"), st).
Proof.
  intros kept. split_and!.
  - intros d. apply filter_str_in_spec.
  - apply sublist_filter.
  - apply find_driver_sql_server.
  - reflexivity.
Qed.

(** C5. For any family other than "SQL Server", discovery returns [None]
    without raising and appends exactly one error line to the log; nothing
    else changes, and the installed drivers play no part. *)
Theorem find_driver_rejects_other_family (E : Env) (st : State) (db_system : string) :
  db_system <> "SQL Server" ->
  find_driver E db_system st =
  (Ok SNone,
   add_log (ERROR, "Invalid database system. Please provide a valid database system name.") st).
Proof.
  intros Hne. unfold find_driver.
  rewrite bool_decide_eq_false_2 by (by rewrite list_elem_of_singleton).
  reflexivity.
Qed.

Lemma find_driver_rejects_other_family_witness :
  "MySQL" <> "SQL Server" /\
  find_driver env_two_drivers "MySQL" fresh_state =
  (Ok SNone,
   add_log (ERROR, "Invalid database system. Please provide a valid database system name.")
           fresh_state).
Proof.
  split; [discriminate|].
  apply (find_driver_rejects_other_family env_two_drivers fresh_state "MySQL").
  discriminate.
Defined.

(** ** Construction *)

(** C6. When discovery returns [None], construction raises the
    "driver not found" exception; the log has received that one error line,
    no library call was made, and the object holds a single attribute,
    [driver = None]: no engine, no session, no connection. *)
Theorem construct_fails_without_driver (E : Env) (p : Profile) (st : State) :
  (find_driver E "SQL Server" st).1 = Ok SNone ->
  (construct E p st).1 = Raise (Exn "Exception" driver_not_found) /\
  st_log (construct E p st).2 = st_log st ++ [(ERROR, driver_not_found)] /\
  st_events (construct E p st).2 = st_events st /\
  st_obj (construct E p st).2 = {["driver" := VScalar SNone]} /\
  st_obj (construct E p st).2 !! "engine" = None /\
  st_obj (construct E p st).2 !! "session" = None /\
  st_obj (construct E p st).2 !! "conn" = None.
Proof.
  rewrite find_driver_sql_server. cbn [fst]. intros [= Hd].
  destruct (construct_follows E p st) as (evs & lg & HP & Hev & Hlg & _).
  rewrite Hd in HP. inversion HP as [T R O | | | |]; try discriminate.
  subst evs lg. rewrite Hev, Hlg, app_nil_r. by split_and!.
Qed.

Lemma construct_fails_without_driver_witness :
  (find_driver env_no_driver "SQL Server" fresh_state).1 = Ok SNone /\
  (construct env_no_driver (profile_sales false) fresh_state).1 =
    Raise (Exn "Exception" driver_not_found) /\
  st_obj (construct env_no_driver (profile_sales false) fresh_state).2 !! "conn" = None.
Proof.
  split; [reflexivity|].
  pose proof (construct_fails_without_driver env_no_driver (profile_sales false)
                fresh_state eq_refl) as H.
  split; [apply H | apply H].
Defined.

(** ** The connection descriptor *)

Example quote_plus_sample :
  quote_plus "DRIVER=ODBC Driver 17 for SQL Server;SERVER=h,1433;" =
  "DRIVER%3DODBC+Driver+17+for+SQL+Server%3BSERVER%3Dh%2C1433%3B".
Proof. reflexivity. Qed.

Lemma string_app_cons (x : ascii) (a b : string) :
  String x a +:+ b = String x (a +:+ b).
Proof. reflexivity. Qed.

Lemma string_app_assoc (a b c : string) : (a +:+ b) +:+ c = a +:+ (b +:+ c).
Proof.
  induction a as [|x a IH]; [done|].
  by rewrite !string_app_cons, IH.
Qed.

Lemma quote_plus_app (a b : string) :
  quote_plus (a +:+ b) = quote_plus a +:+ quote_plus b.
Proof.
  induction a as [|x a IH]; [done|].
  change (quote_byte x +:+ quote_plus (a +:+ b) =
          (quote_byte x +:+ quote_plus a) +:+ quote_plus b).
  by rewrite IH, string_app_assoc.
Qed.

(** Escaping loses nothing: the receiving end reads the string back. *)
Lemma unquote_quote_byte (c : ascii) (r : string) :
  unquote_plus (quote_byte c +:+ r) = String c (unquote_plus r).
Proof. destruct c as [[] [] [] [] [] [] [] []]; reflexivity. Qed.

Lemma unquote_plus_quote_plus (s : string) : unquote_plus (quote_plus s) = s.
Proof.
  induction s as [|c s IH]; [done|].
  cbn [quote_plus]. by rewrite unquote_quote_byte, IH.
Qed.

Lemma occurs_in_app_r (needle a b : string) :
  occurs_in needle b -> occurs_in needle (a +:+ b).
Proof.
  intros (x & y & ->). exists (a +:+ x), y. by rewrite string_app_assoc.
Qed.

(** The descriptor is the escaped rendering of the fields of the
    specification. *)
Lemma params_of_fields (driver server port database user password trusted : scalar) :
  params_of driver server port database user password trusted =
  quote_plus (odbc_render
    (descriptor_fields driver server port database user password trusted)).
Proof.
  unfold params_of, descriptor_fields, trusted_string, credential_string.
  destruct (truthy trusted); cbn [odbc_render foldr app fst snd];
    rewrite !string_app_assoc; reflexivity.
Qed.

Lemma odbc_render_field (k v : string) (fields : list (string * string)) :
  (k, v) ∈ fields -> occurs_in (k +:+ "=" +:+ v +:+ ";") (odbc_render fields).
Proof.
  induction fields as [|[k' v'] fields IH]; [by intros ?%elem_of_nil|].
  intros [[= -> ->] | Hin]%elem_of_cons; cbn [odbc_render foldr fst snd].
  - exists "", (odbc_render fields). cbn [odbc_render].
    by rewrite !string_app_assoc.
  - change (foldr _ _ fields) with (odbc_render fields).
    do 4 apply occurs_in_app_r. by apply IH.
Qed.

Lemma occurs_in_quote_plus (needle hay : string) :
  occurs_in needle hay -> occurs_in (quote_plus needle) (quote_plus hay).
Proof.
  intros (a & b & ->). exists (quote_plus a), (quote_plus b).
  by rewrite !quote_plus_app.
Qed.

Lemma quote_plus_field (k v : string) :
  quote_plus (k +:+ "=" +:+ v +:+ ";") =
  quote_plus k +:+ "%3D" +:+ quote_plus v +:+ "%3B".
Proof. by rewrite !quote_plus_app. Qed.

(** A field of the rendering shows in the escaped descriptor. *)
Lemma escaped_field (k v : string) (fields : list (string * string)) :
  (k, v) ∈ fields ->
  occurs_in (quote_plus k +:+ "%3D" +:+ quote_plus v +:+ "%3B")
            (quote_plus (odbc_render fields)).
Proof.
  intros Hin. rewrite <- quote_plus_field.
  by apply occurs_in_quote_plus, odbc_render_field.
Qed.


(** *** Where a key can occur in the descriptor *)

Lemma string_app_nil (s : string) : "" +:+ s = s.
Proof. reflexivity. Qed.

Lemma startswith_cons (a b : ascii) (n h : string) :
  startswith (String a n) (String b h) = Ascii.eqb a b && startswith n h.
Proof. reflexivity. Qed.

(** A kept character at the head of an escaped string comes from that same
    character at the head of the string. *)
Lemma startswith_quote_safe (x : ascii) (nq s : string) :
  always_safe x = true ->
  startswith (String x nq) (quote_plus s) =
  match s with
  | EmptyString => false
  | String c s' => Ascii.eqb x c && startswith nq (quote_plus s')
  end.
Proof.
  intros Hx. destruct s as [|c s']; [done|].
  cbn [quote_plus]. unfold quote_byte.
  destruct (always_safe c) eqn:Hc.
  - by rewrite string_app_cons, string_app_nil.
  - assert (Hxc : Ascii.eqb x c = false)
      by (destruct (Ascii.eqb_spec x c); [subst; congruence | done]).
    rewrite Hxc.
    assert (Hplus : Ascii.eqb x "+" = false)
      by (destruct (Ascii.eqb_spec x "+") as [->|]; [discriminate Hx | done]).
    assert (Hpct : Ascii.eqb x "%" = false)
      by (destruct (Ascii.eqb_spec x "%") as [->|]; [discriminate Hx | done]).
    destruct (Ascii.eqb c " "); rewrite string_app_cons; cbn [startswith];
      by rewrite ?Hplus, ?Hpct.
Qed.

(** [%3D] at the head of an escaped string comes from [=]. *)
Lemma startswith_quote_equals (nq s : string) :
  startswith (String "%" (String "3" (String "D" nq))) (quote_plus s) =
  match s with
  | EmptyString => false
  | String c s' => Ascii.eqb "=" c && startswith nq (quote_plus s')
  end.
Proof.
  destruct s as [|c s']; [done|].
  destruct c as [[] [] [] [] [] [] [] []]; reflexivity.
Qed.

(** A key that starts with [U] or [P] cannot start inside an escape [%XX]. *)
Lemma str_in_quote_block (x c : ascii) (nq rest : string) :
  x = "U"%char \/ x = "P"%char ->
  str_in (String x nq) (quote_byte c +:+ rest) =
  startswith (String x nq) (quote_byte c +:+ rest) || str_in (String x nq) rest.
Proof.
  intros [->| ->]; destruct c as [[] [] [] [] [] [] [] []]; reflexivity.
Qed.

(** The escaped key [k%3D] occurs in an escaped string exactly where the key
    [k=] occurs in the string. *)
Lemma str_in_escaped_key (k1 k2 k3 : ascii) (s : string) :
  k1 = "U"%char \/ k1 = "P"%char ->
  always_safe k1 = true -> always_safe k2 = true -> always_safe k3 = true ->
  str_in (String k1 (String k2 (String k3 "%3D"))) (quote_plus s) =
  str_in (String k1 (String k2 (String k3 "="))) s.
Proof.
  intros Hk H1 H2 H3.
  assert (Hhead : forall s,
             startswith (String k1 (String k2 (String k3 "%3D"))) (quote_plus s) =
             startswith (String k1 (String k2 (String k3 "="))) s).
  { clear s. intros s.
    rewrite startswith_quote_safe by done. destruct s as [|c1 s]; [done|].
    rewrite startswith_cons. f_equal.
    rewrite startswith_quote_safe by done. destruct s as [|c2 s]; [done|].
    rewrite startswith_cons. f_equal.
    rewrite startswith_quote_safe by done. destruct s as [|c3 s]; [done|].
    rewrite startswith_cons. f_equal.
    rewrite startswith_quote_equals. destruct s as [|c4 s]; [done|].
    rewrite startswith_cons. by f_equal. }
  induction s as [|c s IH]; [done|].
  change (quote_plus (String c s)) with (quote_byte c +:+ quote_plus s).
  rewrite str_in_quote_block by done.
  change (quote_byte c +:+ quote_plus s) with (quote_plus (String c s)).
  rewrite Hhead, IH. reflexivity.
Qed.

(** A key does not straddle a separator it does not contain. *)
Lemma startswith_app_sep (n v : string) (sep : ascii) (rest : string) :
  string_forallb (fun c => negb (Ascii.eqb c sep)) n = true ->
  startswith n (v +:+ String sep rest) = startswith n v.
Proof.
  revert v. induction n as [|a n IH]; intros v Hn; [by destruct v|].
  cbn [string_forallb] in Hn. apply andb_true_iff in Hn as [Ha Hn].
  destruct v as [|b v].
  - rewrite string_app_nil. cbn [startswith].
    apply negb_true_iff in Ha. by rewrite Ha.
  - rewrite string_app_cons. cbn [startswith]. by rewrite IH.
Qed.

Lemma str_in_app_sep (a : ascii) (n v : string) (sep : ascii) (rest : string) :
  string_forallb (fun c => negb (Ascii.eqb c sep)) (String a n) = true ->
  str_in (String a n) (v +:+ (String sep "" +:+ rest)) =
  str_in (String a n) v || str_in (String a n) rest.
Proof.
  intros Hn. rewrite string_app_cons, string_app_nil.
  induction v as [|b v IH].
  - rewrite string_app_nil. cbn [str_in startswith].
    cbn [string_forallb] in Hn. apply andb_true_iff in Hn as [Ha _].
    apply negb_true_iff in Ha. by rewrite Ha.
  - rewrite string_app_cons. cbn [str_in]. rewrite IH.
    rewrite <- string_app_cons, startswith_app_sep by done.
    by rewrite orb_assoc.
Qed.

(** A key does not start in a literal that lacks its first character. *)
Lemma str_in_skip (a : ascii) (n lit rest : string) :
  string_forallb (fun c => negb (Ascii.eqb a c)) lit = true ->
  str_in (String a n) (lit +:+ rest) = str_in (String a n) rest.
Proof.
  induction lit as [|b lit IH]; intros Hl; [done|].
  cbn [string_forallb] in Hl. apply andb_true_iff in Hl as [Hb Hl].
  rewrite string_app_cons. cbn [str_in startswith].
  apply negb_true_iff in Hb. by rewrite Hb, IH.
Qed.

(** In the trusted descriptor, a key [k=] made of kept characters and
    starting with [U] or [P] occurs exactly when one of the four values
    contains it. *)
Lemma trusted_key_occurrence (k1 k2 k3 : ascii) (driver server port database : scalar) :
  k1 = "U"%char \/ k1 = "P"%char ->
  always_safe k1 = true -> always_safe k2 = true -> always_safe k3 = true ->
  string_forallb (fun c => negb (Ascii.eqb c ";"))
                 (String k1 (String k2 (String k3 "="))) = true ->
  string_forallb (fun c => negb (Ascii.eqb c ","))
                 (String k1 (String k2 (String k3 "="))) = true ->
  let key := String k1 (String k2 (String k3 "=")) in
  str_in (String k1 (String k2 (String k3 "%3D")))
         (quote_plus (trusted_string driver server port database)) =
  str_in key (py_str driver) || str_in key (py_str server) ||
  str_in key (py_str port) || str_in key (py_str database).
Proof.
  intros Hk H1 H2 H3 Hsemi Hcomma key.
  rewrite str_in_escaped_key by done. fold key. unfold trusted_string.
  assert (Hlit : forall lit,
             lit = "DRIVER=" \/ lit = "SERVER=" \/ lit = "DATABASE=" ->
             string_forallb (fun c => negb (Ascii.eqb k1 c)) lit = true)
    by (intros lit [->|[->| ->]]; destruct Hk as [->| ->]; reflexivity).
  unfold key.
  rewrite (str_in_skip k1 _ "DRIVER=") by (apply Hlit; auto).
  rewrite (str_in_app_sep k1 _ _ ";") by done.
  rewrite (str_in_skip k1 _ "SERVER=") by (apply Hlit; auto).
  rewrite (str_in_app_sep k1 _ _ ",") by done.
  change (py_str port +:+ ";" +:+ ?r) with (py_str port +:+ (";" +:+ r)).
  rewrite (str_in_app_sep k1 _ (py_str port) ";") by done.
  rewrite (str_in_skip k1 _ "DATABASE=") by (apply Hlit; auto).
  rewrite (str_in_app_sep k1 _ _ ";") by done.
  assert (Hlast : str_in (String k1 (String k2 (String k3 "=")))
                          "Trusted_Connection=yes;" = false)
    by (destruct Hk as [->| ->]; reflexivity).
  by rewrite Hlast, orb_false_r, !orb_assoc.
Qed.
(** C3. For every profile, environment and driver, the descriptor assembled
    by [__init__] is the escaped [key=value;] rendering of its fields, and
    the receiving end decodes it back to that rendering.  When the trusted
    flag is true the fields are DRIVER, SERVER, DATABASE and
    Trusted_Connection=yes, the marker shows in the descriptor, the
    descriptor is the same whatever username and password were given or
    found in the environment, and the text [UID=] or [PWD=] occurs in it,
    escaped, exactly when the driver, server, port or database value itself
    contains it: the values are inserted as they are.  When the flag is
    false the fields are DRIVER, SERVER, DATABASE, UID, PWD and
    Trusted_Connection=no, and the UID field, the PWD field and the
    non-trusted marker show in the descriptor. *)
Theorem descriptor_fields_by_trust_flag (E : Env) (p : Profile) (d : scalar) :
  let params := descriptor E p d in
  let fields := descriptor_fields d (p_server p) (p_port p) (p_database p)
                  (user_of E p) (password_of E p) (p_use_trusted_connection p) in
  params = quote_plus (odbc_render fields) /\
  unquote_plus params = odbc_render fields /\
  if truthy (p_use_trusted_connection p) then
    fields.*1 = ["DRIVER"; "SERVER"; "DATABASE"; "Trusted_Connection"] /\
    ("Trusted_Connection", "yes") ∈ fields /\
    occurs_in "Trusted_Connection%3Dyes%3B" params /\
    (forall E' user' password',
        descriptor E'
          {| p_database := p_database p; p_server := p_server p;
             p_port := p_port p; p_user := user'; p_password := password';
             p_use_trusted_connection := p_use_trusted_connection p |} d
        = params) /\
    str_in "UID%3D" params =
      str_in "UID=" (py_str d) || str_in "UID=" (py_str (p_server p)) ||
      str_in "UID=" (py_str (p_port p)) || str_in "UID=" (py_str (p_database p)) /\
    str_in "PWD%3D" params =
      str_in "PWD=" (py_str d) || str_in "PWD=" (py_str (p_server p)) ||
      str_in "PWD=" (py_str (p_port p)) || str_in "PWD=" (py_str (p_database p))
  else
    fields.*1 = ["DRIVER"; "SERVER"; "DATABASE"; "UID"; "PWD"; "Trusted_Connection"] /\
    ("UID", py_str (user_of E p)) ∈ fields /\
    ("PWD", py_str (password_of E p)) ∈ fields /\
    ("Trusted_Connection", "no") ∈ fields /\
    occurs_in ("UID%3D" +:+ quote_plus (py_str (user_of E p)) +:+ "%3B") params /\
    occurs_in ("PWD%3D" +:+ quote_plus (py_str (password_of E p)) +:+ "%3B") params /\
    occurs_in "Trusted_Connection%3Dno%3B" params.
Proof.
  intros params fields.
  assert (Hp : params = quote_plus (odbc_render fields))
    by apply params_of_fields.
  split; [done|]. split; [by rewrite Hp, unquote_plus_quote_plus|].
  subst fields. unfold descriptor_fields in *.
  destruct (truthy (p_use_trusted_connection p)) eqn:T.
  - split_and!; [done | set_solver | | | |].
    + rewrite Hp.
      apply (escaped_field "Trusted_Connection" "yes"). set_solver.
    + intros E' user' password'. subst params.
      unfold descriptor, params_of. cbn [p_use_trusted_connection p_server
        p_port p_database]. by rewrite T.
    + subst params. unfold descriptor, params_of. rewrite T.
      apply (trusted_key_occurrence "U" "I" "D"); auto.
    + subst params. unfold descriptor, params_of. rewrite T.
      apply (trusted_key_occurrence "P" "W" "D"); auto.
  - split_and!; [done | set_solver | set_solver | set_solver | | |]; rewrite Hp.
    + apply (escaped_field "UID"). set_solver.
    + apply (escaped_field "PWD"). set_solver.
    + apply (escaped_field "Trusted_Connection" "no"). set_solver.
Qed.

(** A trusted profile whose database name carries credentials of its own:
    the descriptor contains a UID field and a PWD field. *)
Lemma descriptor_trusted_with_injected_fields :
  let params := descriptor env_two_drivers profile_injected
                  (SStr "ODBC Driver 17 for SQL Server") in
  truthy (p_use_trusted_connection profile_injected) = true /\
  params = "DRIVER%3DODBC+Driver+17+for+SQL+Server%3BSERVER%3Dh%2C1433%3BDATABASE%3DSales%3BUID%3Dsa%3BPWD%3Dhunter2%3BTrusted_Connection%3Dyes%3B" /\
  unquote_plus params = "DRIVER=ODBC Driver 17 for SQL Server;SERVER=h,1433;DATABASE=Sales;UID=sa;PWD=hunter2;Trusted_Connection=yes;" /\
  str_in "UID%3Dsa%3B" params = true /\
  str_in "PWD%3Dhunter2%3B" params = true.
Proof. by vm_compute. Qed.

(** The two profiles of the specification, on a machine where driver 17 is
    the one found. *)
Example descriptor_trusted_sales :
  let d := descriptor env_two_drivers (profile_sales true)
             (SStr "ODBC Driver 17 for SQL Server") in
  d = "DRIVER%3DODBC+Driver+17+for+SQL+Server%3BSERVER%3Dh%2C1433%3BDATABASE%3DSales%3BTrusted_Connection%3Dyes%3B"
  /\ str_in "UID" d = false /\ str_in "PWD" d = false.
Proof. by vm_compute. Qed.

Example descriptor_credentials_sales :
  descriptor env_two_drivers (profile_sales false)
    (SStr "ODBC Driver 17 for SQL Server") =
  "DRIVER%3DODBC+Driver+17+for+SQL+Server%3BSERVER%3Dh%2C1433%3BDATABASE%3DSales%3BUID%3Du%3BPWD%3Dp%3BTrusted_Connection%3Dno%3B".
Proof. by vm_compute. Qed.

(** ** Construction with a driver *)

(** Whatever happens once a driver is found, the profile attributes are the
    ones of [profile_attributes]; the engine, session and connection
    attributes come on top, in that order, as far as the construction got. *)
Lemma construct_profile_attributes (E : Env) (p : Profile) (st : State) (d : scalar) (k : string) :
  (find_driver E "SQL Server" st).1 = Ok d ->
  truthy d = true ->
  k <> "engine" -> k <> "session" -> k <> "conn" ->
  st_obj (construct E p st).2 !! k = profile_attributes E p d !! k.
Proof.
  rewrite find_driver_sql_server. cbn [fst]. intros [= Hd] T Hk1 Hk2 Hk3.
  destruct (construct_follows E p st) as (evs & lg & HP & _).
  rewrite Hd in HP. inversion HP; try congruence;
    by rewrite ?lookup_insert_ne by done.
Qed.

(** C9. Once a driver is found, the [user] attribute is the [user] argument
    when that is truthy and [os.environ.get('SQLUID')] otherwise, and likewise
    for [password] and SQLPWD; the empty string is falsy, like [None], so an
    empty user or password is replaced by the environment variable. *)
Theorem construct_credentials_fall_back (E : Env) (p : Profile) (st : State) (d : scalar) :
  (find_driver E "SQL Server" st).1 = Ok d ->
  truthy d = true ->
  st_obj (construct E p st).2 !! "user" =
    Some (VScalar (if truthy (p_user p) then p_user p
                   else os_environ_get E "SQLUID")) /\
  st_obj (construct E p st).2 !! "password" =
    Some (VScalar (if truthy (p_password p) then p_password p
                   else os_environ_get E "SQLPWD")) /\
  truthy (SStr "") = false /\ truthy SNone = false.
Proof.
  intros Hd T.
  rewrite !(construct_profile_attributes E p st d) by done.
  by split_and!.
Qed.

Lemma construct_credentials_fall_back_witness :
  st_obj (construct env_two_drivers profile_empty_credentials fresh_state).2
    !! "user" = Some (VScalar (SStr "sa")) /\
  st_obj (construct env_two_drivers profile_empty_credentials fresh_state).2
    !! "password" = Some (VScalar (SStr "s3cret")).
Proof.
  pose proof (construct_credentials_fall_back env_two_drivers
                profile_empty_credentials fresh_state
                (SStr "ODBC Driver 17 for SQL Server") eq_refl eq_refl)
    as (Hu & Hp & _).
  split; [exact Hu | exact Hp].
Defined.

(** ** Handles: an invariant of the manager's life *)

Lemma wf_fresh (st : State) : wf st -> fresh (st_next st) st.
Proof.
  intros [Ho Hev]. split.
  - intros k v Hk Hv. specialize (Ho k v _ Hk Hv). lia.
  - eapply Forall_impl; [exact Hev|]. intros ev Hb Hin.
    rewrite Forall_forall in Hb. specialize (Hb _ Hin). lia.
Qed.

Lemma bounded_mono (n n' : handle) (evs : list event) :
  n <= n' -> bounded n evs -> bounded n' evs.
Proof.
  intros Hn Hb. eapply Forall_impl; [exact Hb|].
  intros ev Hev. eapply Forall_impl; [exact Hev|]. intros h. cbn. lia.
Qed.

(** A computation that [follows] its paths keeps [wf] as soon as the calls it
    makes only mention handles below the final bound. *)
Lemma follows_wf {A} (m : M A) (st : State) P :
  follows m st P ->
  wf st ->
  bounded (st_next st + allocs (calls_of m st)) (calls_of m st) ->
  wf (m st).2.
Proof.
  intros (_ & Hev & _ & Ho & Hn)%follows_read [Hobj Hevs] Hb.
  split.
  - rewrite Ho, Hn. intros k v h Hk Hv. specialize (Hobj k v h Hk Hv). lia.
  - rewrite Hev, Hn. apply Forall_app. split; [|exact Hb].
    eapply bounded_mono; [|exact Hevs]. lia.
Qed.

Ltac bound_handles :=
  unfold bounded; cbn;
  repeat (apply Forall_cons; split; [cbn; repeat constructor; lia|]);
  apply Forall_nil_2.

Lemma run_query_path_bounded o n q commit r evs lg :
  run_query_path o n q commit r evs lg ->
  (forall k v h, o !! k = Some v -> value_handle v = Some h -> h < n) ->
  bounded (n + allocs evs) evs.
Proof.
  intros HP Ho.
  assert (Hg : forall g, o !! "engine" = Some (VEngine g) -> g < n)
    by (intros g Hg; by apply (Ho _ _ g Hg)).
  assert (Hs : forall s, o !! "session" = Some (VSession s) -> s < n)
    by (intros s Hs; by apply (Ho _ _ s Hs)).
  inversion HP; subst;
    repeat match goal with
           | H : unwind _ _ _ _ |- _ => inversion H; subst; clear H
           | H : o !! "engine" = Some (VEngine _) |- _ => apply Hg in H
           | H : o !! "session" = Some (VSession _) |- _ => apply Hs in H
           end;
    try (destruct commit;
         repeat match goal with
                | H : true = true -> _ |- _ => specialize (H eq_refl)
                | H : o !! "session" = Some (VSession _) |- _ => apply Hs in H
                end);
    bound_handles.
Qed.

Lemma run_query_wf (E : Env) q commit st :
  wf st -> wf (run_query E q commit st).2.
Proof.
  intros Hwf. eapply follows_wf; [apply run_query_follows | done |].
  destruct (follows_read _ _ _ (run_query_follows E q commit st)) as (HP & _).
  eapply run_query_path_bounded; [exact HP | apply Hwf].
Qed.

Lemma disconnect_wf (E : Env) st : wf st -> wf (disconnect E st).2.
Proof.
  intros Hwf. eapply follows_wf; [apply disconnect_follows | done |].
  destruct (follows_read _ _ _ (disconnect_follows E st)) as (HP & _).
  destruct Hwf as [Ho _].
  assert (Hc : forall c, st_obj st !! "conn" = Some (VConn c) -> c < st_next st)
    by (intros c Hc; by apply (Ho _ _ c Hc)).
  assert (Hg : forall g, st_obj st !! "engine" = Some (VEngine g) -> g < st_next st)
    by (intros g Hg; by apply (Ho _ _ g Hg)).
  inversion HP;
    repeat match goal with
           | H : st_obj st !! _ = Some (VConn _) |- _ => apply Hc in H
           | H : st_obj st !! _ = Some (VEngine _) |- _ => apply Hg in H
           end;
    bound_handles.
Qed.

Lemma save_query_df_wf (E : Env) q st : wf st -> wf (save_query_df E q st).2.
Proof.
  intros Hwf. eapply follows_wf; [apply save_query_df_follows | done |].
  destruct (follows_read _ _ _ (save_query_df_follows E q st)) as (HP & _).
  destruct Hwf as [Ho _].
  inversion HP as [| v e Hv | v Hv]; [bound_handles | |];
    unfold bounded; cbn;
    (apply Forall_cons; split; [|apply Forall_nil_2]);
    unfold event_handles; cbn;
    destruct (value_handle v) as [h|] eqn:Hh; cbn;
    try specialize (Ho _ _ _ Hv Hh);
    repeat constructor; lia.
Qed.

Lemma profile_attributes_scalar (E : Env) (p : Profile) (d : scalar) k v :
  profile_attributes E p d !! k = Some v -> value_handle v = None.
Proof.
  unfold profile_attributes. intros Hk.
  repeat (rewrite lookup_insert in Hk; case_decide; [by simplify_eq|]).
  by rewrite lookup_empty in Hk.
Qed.

(** A construction that returns leaves a manager that holds its engine, its
    session and its connection, under three new handles. *)
Lemma construct_returns (E : Env) (p : Profile) (st : State) :
  (construct E p st).1 = Ok tt ->
  st_obj (construct E p st).2 !! "engine" = Some (VEngine (st_next st)) /\
  st_obj (construct E p st).2 !! "session" = Some (VSession (S (st_next st))) /\
  st_obj (construct E p st).2 !! "conn" = Some (VConn (S (S (st_next st)))) /\
  calls_of (construct E p) st =
    [(engine_url E p (last_match "SQL Server" (pyodbc_drivers E)),
      Returned (Some (st_next st)));
     (OpenSession (st_next st), Returned (Some (S (st_next st))));
     (Connect (st_next st), Returned (Some (S (S (st_next st)))))] /\
  st_next (construct E p st).2 = S (S (S (st_next st))) /\
  (forall k v h, st_obj (construct E p st).2 !! k = Some v ->
                 value_handle v = Some h -> h < S (S (S (st_next st)))).
Proof.
  intros HOk.
  destruct (construct_follows E p st) as (evs & lg & HP & Hev & Hlg & Hn).
  unfold calls_of. rewrite Hev, drop_app_length, Hn.
  rewrite HOk in HP. inversion HP as [| | | |T R O Hevs Hlgs].
  split_and!; try done.
  - cbn. lia.
  - intros k v h Hk Hv.
    repeat (rewrite lookup_insert in Hk; case_decide;
            [simplify_eq; cbn in Hv; simplify_eq; lia|]).
    apply profile_attributes_scalar in Hk. congruence.
Qed.

Lemma construct_wf_ready (E : Env) (p : Profile) (st : State) :
  wf st -> (construct E p st).1 = Ok tt ->
  wf (construct E p st).2 /\ ready (construct E p st).2.
Proof.
  intros [_ Hevs] HOk.
  destruct (construct_returns E p st HOk) as (Hg & Hs & Hc & Hcalls & Hn & Ho).
  split; [|by exists (st_next st), (S (st_next st)), (S (S (st_next st)))].
  split; [by rewrite Hn|].
  destruct (construct_follows E p st) as (evs & lg & HP & Hev & _).
  assert (evs = calls_of (construct E p) st) as ->
    by (unfold calls_of; by rewrite Hev, drop_app_length).
  rewrite Hev, Hn, Hcalls. apply Forall_app. split.
  - eapply bounded_mono; [|exact Hevs]. lia.
  - bound_handles.
Qed.

(** Every state a caller can observe is well formed and holds an engine, a
    session and a connection: no method assigns an attribute. *)
Lemma reachable_wf_ready (E : Env) (st : State) :
  reachable E st -> wf st /\ ready st.
Proof.
  induction 1 as [p st Hwf HOk | r st _ [IHwf IHready]].
  - by apply construct_wf_ready.
  - destruct r as [q commit | q |]; cbn [perform]; split.
    + by apply run_query_wf.
    + unfold ready.
      by destruct (run_query_follows E q commit st) as (_ & _ & _ & _ & _ & -> & _).
    + by apply save_query_df_wf.
    + unfold ready.
      by destruct (save_query_df_follows E q st) as (_ & _ & _ & _ & _ & -> & _).
    + by apply disconnect_wf.
    + unfold ready.
      by destruct (disconnect_follows E st) as (_ & _ & _ & _ & _ & -> & _).
Qed.

(** ** [run_query] *)

Lemma run_query_cases (E : Env) q commit st :
  run_query_path (st_obj st) (st_next st) q commit
    (run_query E q commit st).1
    (calls_of (run_query E q commit) st)
    (lines_of (run_query E q commit) st).
Proof. apply (follows_read _ _ _ (run_query_follows E q commit st)). Qed.

Lemma disconnect_cases (E : Env) st :
  disconnect_path (st_obj st) (disconnect E st).1
    (calls_of (disconnect E) st) (lines_of (disconnect E) st).
Proof. apply (follows_read _ _ _ (disconnect_follows E st)). Qed.

Lemma save_query_df_cases (E : Env) q st :
  save_query_df_path (st_obj st) (st_next st) q (save_query_df E q st).1
    (calls_of (save_query_df E q) st) (lines_of (save_query_df E q) st).
Proof. apply (follows_read _ _ _ (save_query_df_follows E q st)). Qed.

(** Case analysis on the path a run took, down to the concrete trace. *)
Ltac by_path HP :=
  inversion HP; subst;
  repeat match goal with
         | H : unwind _ _ _ _ |- _ => inversion H; subst; clear H
         | H : true = true -> _ |- _ => specialize (H eq_refl)
         | H : _ \/ _ |- _ => destruct H
         | H : _ /\ _ |- _ => destruct H
         | H : exists _, _ |- _ => destruct H
         end;
  simplify_eq;
  try solve [ exfalso;
              match goal with
              | H : forall h, _ <> _ |- _ => eapply H; reflexivity
              end ].

(** C1. A call with [commit=False] never invokes [commit] on a session,
    whether it returns or raises.  A call with [commit=True] invokes it
    exactly when the per-call transaction has executed the statement without
    error: the call that follows the statement is then [commit] on the
    session held by the manager, it is the only session commit of the run,
    and all later calls are on the per-call connection; when the statement
    was not executed, no session commit is invoked. *)
Theorem run_query_commit_flag (E : Env) (q : string) (st : State) (s : handle) :
  st_obj st !! "session" = Some (VSession s) ->
  session_commits (calls_of (run_query E q false) st) = [] /\
  let evs := calls_of (run_query E q true) st in
  if executed evs then
    exists g c r a rest,
      evs = [(Begin g, Returned (Some c)); (Execute c q, Returned (Some r));
             (SessionCommit s, a)] ++ rest /\
      session_commits rest = [] /\
      Forall (fun ev : event => call_handles ev.1 = [c]) rest
  else session_commits evs = [].
Proof.
  intros Hs. split.
  - pose proof (run_query_cases E q false st) as HP. revert HP.
    generalize (run_query E q false st).1,
      (calls_of (run_query E q false) st), (lines_of (run_query E q false) st).
    intros r evs lg HP. by_path HP; done.
  - pose proof (run_query_cases E q true st) as HP. revert HP.
    generalize (run_query E q true st).1,
      (calls_of (run_query E q true) st), (lines_of (run_query E q true) st).
    intros r evs lg HP. cbn zeta. by_path HP; cbn; try done.
    all: eexists _, _, _, _, _;
      split_and!; [reflexivity | reflexivity | repeat constructor].
Qed.

Lemma run_query_commit_flag_witness :
  st_obj connected_state !! "session" = Some (VSession 1) /\
  session_commits (calls_of (run_query env_two_drivers "SELECT 1" false)
                            connected_state) = [] /\
  session_commits (calls_of (run_query env_two_drivers "SELECT 1" true)
                            connected_state) = [1].
Proof.
  split; [reflexivity|].
  destruct (run_query_commit_flag env_two_drivers "SELECT 1" connected_state 1
              eq_refl) as [Hfalse Htrue].
  split; [exact Hfalse | reflexivity].
Defined.

(** With [commit=True] on a statement the server rejects, the call raises
    and [commit] is never invoked on the session. *)
Lemma run_query_commit_skipped_on_error :
  st_obj rejecting_state !! "session" = Some (VSession 1) /\
  (run_query env_bad_sql "SELEC 1" true rejecting_state).1 = Raise syntax_error /\
  calls_of (run_query env_bad_sql "SELEC 1" true) rejecting_state =
    [(Begin 0, Returned (Some 3)); (Execute 3 "SELEC 1", Raised syntax_error);
     (TxRollback 3, Returned None); (Close 3, Returned None)] /\
  ~ 1 ∈ session_commits (calls_of (run_query env_bad_sql "SELEC 1" true)
                                  rejecting_state).
Proof.
  split_and!; [reflexivity | reflexivity | reflexivity |].
  change (session_commits _) with (@nil handle). apply not_elem_of_nil.
Qed.

Lemma wf_fresh_state : wf fresh_state.
Proof.
  split; [|by apply Forall_nil_2].
  intros k v h Hk. cbn in Hk. by rewrite lookup_empty in Hk.
Qed.

Lemma wf_connected_state : wf connected_state.
Proof. by apply construct_wf_ready; [apply wf_fresh_state|]. Qed.

Lemma reachable_connected_state : reachable env_two_drivers connected_state.
Proof. by apply reach_construct; [apply wf_fresh_state|]. Qed.

(** C2. A call to [run_query] that returns has taken a connection that
    nothing held or mentioned before, executed the statement on it, committed
    the transaction of that connection and closed it, in this order and
    before returning, whatever the commit flag; with [commit=True] the only
    other call is the commit on the session, between the statement and the
    commit of the per-call transaction. *)
Theorem run_query_commits_per_call_transaction
    (E : Env) (q : string) (commit : bool) (st : State) (r : handle) :
  wf st ->
  (run_query E q commit st).1 = Ok r ->
  exists g c s,
    st_obj st !! "engine" = Some (VEngine g) /\
    fresh c st /\
    (commit = true -> st_obj st !! "session" = Some (VSession s)) /\
    calls_of (run_query E q commit) st =
      [(Begin g, Returned (Some c)); (Execute c q, Returned (Some r))] ++
      commit_events commit s ++
      [(TxCommit c, Returned None); (Close c, Returned None)].
Proof.
  intros Hwf HOk.
  pose proof (run_query_cases E q commit st) as HP. rewrite HOk in HP.
  revert HP. generalize (calls_of (run_query E q commit) st),
    (lines_of (run_query E q commit) st).
  intros evs lg HP. inversion HP as [| | | | | | |g s Hg Hs]; subst.
  exists g, (st_next st), s. split_and!; [done | by apply wf_fresh | done | done].
Qed.

Lemma run_query_commits_per_call_transaction_witness :
  wf connected_state /\
  (run_query env_two_drivers "SELECT 1" false connected_state).1 = Ok 4 /\
  exists g c s,
    st_obj connected_state !! "engine" = Some (VEngine g) /\
    fresh c connected_state /\
    (false = true -> st_obj connected_state !! "session" = Some (VSession s)) /\
    calls_of (run_query env_two_drivers "SELECT 1" false) connected_state =
      [(Begin g, Returned (Some c)); (Execute c "SELECT 1", Returned (Some 4))] ++
      commit_events false s ++
      [(TxCommit c, Returned None); (Close c, Returned None)].
Proof.
  split; [apply wf_connected_state|]. split; [reflexivity|].
  apply (run_query_commits_per_call_transaction env_two_drivers "SELECT 1"
           false connected_state 4 wf_connected_state eq_refl).
Defined.

(** C7. Every call to [run_query] writes the attempt line first.  A call
    that returns writes one more line, the success line.  A call that raises
    has written the success line exactly when the failure came while the
    per-call transaction was being committed and closed; it then writes the
    error line, last, when what it raises is an [Exception], and no error
    line when it is not (the [except Exception] clause does not run).  So a
    call that fails with an [Exception] writes two or three lines. *)
Theorem run_query_log_lines (E : Env) (q : string) (commit : bool) (st : State) :
  match (run_query E q commit st).1 with
  | Ok _ => lines_of (run_query E q commit) st = [attempt_line q; success_line]
  | Raise e =>
      lines_of (run_query E q commit) st =
        attempt_line q ::
        (if tx_commit_invoked (calls_of (run_query E q commit) st)
         then [success_line] else []) ++
        (if is_exception e then [error_line e] else [])
  end.
Proof.
  pose proof (run_query_cases E q commit st) as HP. revert HP.
  generalize (run_query E q commit st).1,
    (calls_of (run_query E q commit) st), (lines_of (run_query E q commit) st).
  intros r evs lg HP. destruct commit; by_path HP; done.
Qed.

(** A statement the server rejects: the call fails and writes two lines, the
    attempt line and the error line, and no success line. *)
Lemma run_query_failure_logs_two_lines :
  (run_query env_bad_sql "SELEC 1" false rejecting_state).1 = Raise syntax_error /\
  lines_of (run_query env_bad_sql "SELEC 1" false) rejecting_state =
    [attempt_line "SELEC 1"; error_line syntax_error] /\
  ~ success_line ∈ lines_of (run_query env_bad_sql "SELEC 1" false) rejecting_state /\
  length (lines_of (run_query env_bad_sql "SELEC 1" false) rejecting_state) <> 3.
Proof.
  split_and!; [reflexivity | reflexivity | | by vm_compute].
  change (lines_of _ _) with [attempt_line "SELEC 1"; error_line syntax_error].
  intros [H|[H|H%elem_of_nil]%elem_of_cons]%elem_of_cons; [discriminate H.. | done].
Qed.

(** The three-line case does occur: the commit of the per-call transaction
    fails after the success line was written. *)
Example run_query_failure_after_success_line :
  (run_query env_bad_commit "SELECT 1" false deadlocked_state).1 = Raise deadlock /\
  lines_of (run_query env_bad_commit "SELECT 1" false) deadlocked_state =
    [attempt_line "SELECT 1"; success_line; error_line deadlock].
Proof. split; reflexivity. Qed.

(** What is not an [Exception] is not logged: an interrupted statement leaves
    the attempt line alone. *)
Example run_query_interrupt_not_logged :
  (run_query env_interrupted "SELECT 1" false interrupted_state).1 = Raise interrupt /\
  lines_of (run_query env_interrupted "SELECT 1" false) interrupted_state =
    [attempt_line "SELECT 1"] /\
  calls_of (run_query env_interrupted "SELECT 1" false) interrupted_state =
    [(Begin 0, Returned (Some 3)); (Execute 3 "SELECT 1", Raised interrupt);
     (TxRollback 3, Returned None); (Close 3, Returned None)].
Proof. split_and!; reflexivity. Qed.

(** ** [save_query_df] *)




(** ** [disconnect] *)

(** C10. On a manager that holds a connection [c] and an engine [g],
    [disconnect] always invokes [close] on [c]; when that returns it invokes
    [dispose] on [g]; when neither raises it returns, having closed the
    connection and disposed the engine, and logs "DB Disconnected!".  When
    [close] raises, nothing else is called and that exception is raised; when
    [dispose] raises, that exception is raised; the error is logged if it is
    an [Exception].  In every case no attribute is assigned (the driver, the
    descriptor, the credentials, the session and every other field are as
    before) and no call is made on the session, which is not closed. *)
Theorem disconnect_frame (E : Env) (st : State) (c g : handle) :
  st_obj st !! "conn" = Some (VConn c) ->
  st_obj st !! "engine" = Some (VEngine g) ->
  st_obj (disconnect E st).2 = st_obj st /\
  Forall (fun ev => on_session ev = false) (calls_of (disconnect E) st) /\
  match fault E (st_events st) (Close c) with
  | Some e =>
      (disconnect E st).1 = Raise e /\
      calls_of (disconnect E) st = [(Close c, Raised e)] /\
      lines_of (disconnect E) st = handled e (disconnect_error_line e)
  | None =>
      match fault E (add_event (Close c, Returned None) st).(st_events)
                  (Dispose g) with
      | Some e =>
          (disconnect E st).1 = Raise e /\
          calls_of (disconnect E) st =
            [(Close c, Returned None); (Dispose g, Raised e)] /\
          lines_of (disconnect E) st = handled e (disconnect_error_line e)
      | None =>
          (disconnect E st).1 = Ok tt /\
          calls_of (disconnect E) st =
            [(Close c, Returned None); (Dispose g, Returned None)] /\
          lines_of (disconnect E) st = [(INFO, "DB Disconnected!")]
      end
  end.
Proof.
  intros Hc Hg.
  split; [by destruct (disconnect_follows E st) as (_ & _ & _ & _ & _ & -> & _)|].
  unfold calls_of, lines_of. run_simpl. rewrite Hc. run_simpl.
  destruct (fault E (st_events st) (Close c)) as [e|] eqn:F; run_simpl.
  - unfold handled. destruct (is_exception e); run_simpl;
      rewrite ?drop_app_length, ?drop_all;
      split_and!; try done; by repeat constructor.
  - rewrite Hg. run_simpl.
    destruct (fault E _ (Dispose g)) as [e|] eqn:F'; run_simpl.
    + unfold handled. destruct (is_exception e); run_simpl;
        rewrite <- ?app_assoc, ?drop_app_length, ?drop_all;
        split_and!; try done; by repeat constructor.
    + rewrite <- ?app_assoc, ?drop_app_length.
      split_and!; try done; by repeat constructor.
Qed.

Lemma disconnect_frame_witness :
  st_obj connected_state !! "conn" = Some (VConn 2) /\
  st_obj connected_state !! "engine" = Some (VEngine 0) /\
  st_obj (disconnect env_two_drivers connected_state).2 = st_obj connected_state /\
  (disconnect env_two_drivers connected_state).1 = Ok tt /\
  calls_of (disconnect env_two_drivers) connected_state =
    [(Close 2, Returned None); (Dispose 0, Returned None)].
Proof.
  split; [reflexivity|]. split; [reflexivity|].
  destruct (disconnect_frame env_two_drivers connected_state 2 0 eq_refl eq_refl)
    as (Ho & _ & HOk & Hcalls & _).
  split; [exact Ho|]. split; [exact HOk | exact Hcalls].
Defined.

(** On the manager of [connected_state]: the session (handle 1) is left
    alone, the connection (handle 2) is closed, the engine (handle 0)
    disposed. *)
Example disconnect_connected_state :
  (disconnect env_two_drivers connected_state).1 = Ok tt /\
  calls_of (disconnect env_two_drivers) connected_state =
    [(Close 2, Returned None); (Dispose 0, Returned None)] /\
  st_obj (disconnect env_two_drivers connected_state).2 !! "session" =
    Some (VSession 1).
Proof. split_and!; reflexivity. Qed.

(** ** The session over the life of a manager *)

Lemma perform_never_closes_session (E : Env) (r : request) (st : State) :
  st_obj (perform E r st) = st_obj st /\
  exists evs,
    st_events (perform E r st) = st_events st ++ evs /\
    Forall (fun ev => closes_session ev = false) evs.
Proof.
  destruct r as [q commit | q |]; cbn [perform].
  - destruct (run_query_follows E q commit st) as (evs & lg & HP & -> & _ & -> & _).
    split; [done|]. exists evs. split; [done|].
    by_path HP; try destruct commit; cbn; repeat constructor.
  - destruct (save_query_df_follows E q st) as (evs & lg & HP & -> & _ & -> & _).
    split; [done|]. exists evs. split; [done|].
    inversion HP; repeat constructor.
  - destruct (disconnect_follows E st) as (evs & lg & HP & -> & _ & -> & _).
    split; [done|]. exists evs. split; [done|].
    inversion HP; repeat constructor.
Qed.

(** No state a caller can observe has seen [close] invoked on the session
    the manager holds. *)
Lemma session_never_closed (E : Env) (st : State) (s : handle) :
  reachable E st ->
  st_obj st !! "session" = Some (VSession s) ->
  Forall (fun ev : event => ev.1 <> SessionClose s) (st_events st).
Proof.
  intros Hreach. revert s.
  induction Hreach as [p st [_ Hold] HOk | r st _ IH]; intros s Hs.
  - destruct (construct_returns E p st HOk) as (_ & Hs' & _ & Hcalls & _).
    destruct (construct_follows E p st) as (evs & lg & _ & Hev & _).
    assert (evs = calls_of (construct E p) st) as ->
      by (unfold calls_of; by rewrite Hev, drop_app_length).
    rewrite Hs' in Hs. injection Hs as <-.
    rewrite Hev, Hcalls. apply Forall_app. split.
    + eapply Forall_impl; [exact Hold|]. intros [c a] Hb Hc. cbn in Hc.
      subst c. unfold event_handles in Hb. cbn in Hb.
      apply Forall_cons in Hb as [Hlt _]. lia.
    + repeat constructor; discriminate.
  - destruct (perform_never_closes_session E r st) as (Ho & evs & Hev & Hno).
    rewrite Ho in Hs. rewrite Hev. apply Forall_app. split; [by apply IH|].
    eapply Forall_impl; [exact Hno|]. intros [c a] Hc. cbn in *.
    by destruct c.
Qed.

(** * Further properties of the code *)

(** ** The descriptor inside the engine URL *)

Lemma string_forallb_app (f : ascii -> bool) (a b : string) :
  string_forallb f (a +:+ b) = string_forallb f a && string_forallb f b.
Proof.
  induction a as [|x a IH]; [done|].
  rewrite string_app_cons. cbn [string_forallb]. by rewrite IH, andb_assoc.
Qed.

Lemma quote_byte_url_safe (c : ascii) :
  string_forallb url_safe (quote_byte c) = true.
Proof. destruct c as [[] [] [] [] [] [] [] []]; reflexivity. Qed.

Lemma quote_plus_url_safe (s : string) :
  string_forallb url_safe (quote_plus s) = true.
Proof.
  induction s as [|c s IH]; [done|].
  cbn [quote_plus]. by rewrite string_forallb_app, quote_byte_url_safe, IH.
Qed.

Lemma string_forallb_excludes (f : ascii -> bool) (c : ascii) (s : string) :
  string_forallb f s = true -> f c = false -> str_in (String c "") s = false.
Proof.
  intros Hs Hc. induction s as [|x s IH]; [done|].
  cbn [string_forallb] in Hs. apply andb_true_iff in Hs as [Hx Hs].
  cbn [str_in startswith]. rewrite (IH Hs), orb_false_r.
  destruct (Ascii.eqb_spec c x) as [->|]; [congruence | done].
Qed.

(** X1. Whatever the profile, the environment and the driver, the descriptor
    stored in [self.params] is made only of letters, digits, [_ . - ~], [+]
    and [%]: none of the separators of the connection string or of the URL
    ([;], [=], [,], [&], space) is left in it. *)
Theorem descriptor_url_safe (E : Env) (p : Profile) (d : scalar) :
  string_forallb url_safe (descriptor E p d) = true /\
  str_in ";" (descriptor E p d) = false /\
  str_in "=" (descriptor E p d) = false /\
  str_in "," (descriptor E p d) = false /\
  str_in "&" (descriptor E p d) = false /\
  str_in " " (descriptor E p d) = false.
Proof.
  assert (H : string_forallb url_safe (descriptor E p d) = true).
  { unfold descriptor, params_of.
    destruct (truthy _); apply quote_plus_url_safe. }
  split_and!; [done | by apply (string_forallb_excludes url_safe)..].
Qed.

(** ** More on driver discovery *)

(** X2. [find_driver('SQL Server')] returns [None] exactly when no installed
    name contains "SQL Server"; otherwise it returns an installed name that
    contains it, hence a non-empty, truthy string: the "driver not found"
    branch of [__init__] is taken only when nothing matches. *)
Theorem find_driver_none_iff_no_match (E : Env) (st : State) :
  ((find_driver E "SQL Server" st).1 = Ok SNone <->
   forall d, d ∈ pyodbc_drivers E -> ~ occurs_in "SQL Server" d) /\
  (exists x, (find_driver E "SQL Server" st).1 = Ok x /\
     (x = SNone \/
      exists d, x = SStr d /\ d ∈ pyodbc_drivers E /\
                occurs_in "SQL Server" d /\ truthy x = true)).
Proof.
  rewrite find_driver_sql_server. cbn [fst]. unfold last_match.
  set (kept := filter _ _).
  assert (Hkept : forall d, d ∈ kept <->
                            d ∈ pyodbc_drivers E /\ occurs_in "SQL Server" d)
    by (intros d; apply filter_str_in_spec).
  destruct (last kept) as [d|] eqn:Hlast.
  - assert (Hd : d ∈ kept).
    { apply last_Some in Hlast as [l ->]. apply elem_of_app. right.
      by apply list_elem_of_singleton. }
    apply Hkept in Hd as [Hin Hocc]. split.
    + split; [done|]. intros Hno. by destruct (Hno d Hin).
    + exists (SStr d). split; [done|]. right. exists d. split_and!; try done.
      destruct Hocc as (a & b & ->). by destruct a.
  - apply last_None in Hlast. split.
    + split; [|done]. intros _ d Hin Hocc.
      assert (Hd : d ∈ kept) by by apply Hkept.
      rewrite Hlast in Hd. by apply elem_of_nil in Hd.
    + exists SNone. split; [done | by left].
Qed.

(** X3. The last match wins: when one more driver is listed after the
    installed ones, discovery returns it if its name contains "SQL Server",
    whatever was found before, and returns what it found before otherwise.
    The choice depends on the listing order only, not on version numbers. *)
Theorem find_driver_later_match_wins (E : Env) (st : State) (d : string) :
  (find_driver (install d E) "SQL Server" st).1 =
  (if str_in "SQL Server" d then Ok (SStr d)
   else (find_driver E "SQL Server" st).1) /\
  (find_driver (install "ODBC Driver 13 for SQL Server"
                 (install "ODBC Driver 17 for SQL Server" E))
               "SQL Server" st).1 = Ok (SStr "ODBC Driver 13 for SQL Server").
Proof.
  rewrite !find_driver_sql_server. cbn [fst install pyodbc_drivers].
  unfold last_match. rewrite !filter_app, !filter_cons, !filter_nil.
  split.
  - destruct (str_in "SQL Server" d) eqn:Hd.
    + rewrite decide_True by done. by rewrite last_snoc.
    + rewrite decide_False by congruence. by rewrite app_nil_r.
  - rewrite (decide_True (P := str_in _ "ODBC Driver 13 for SQL Server" = true))
      by reflexivity.
    by rewrite last_snoc.
Qed.

(** ** More on construction *)

(** Membership in an explicit trace, case by case. *)
Ltac in_cases H :=
  repeat (apply elem_of_cons in H as [H|H]; [simplify_eq|]);
  try (by apply elem_of_nil in H).

Lemma construct_calls_lines (E : Env) (p : Profile) (st : State) :
  construct_path E p (last_match "SQL Server" (pyodbc_drivers E)) (st_next st)
    (construct E p st).1 (st_obj (construct E p st).2)
    (calls_of (construct E p) st) (lines_of (construct E p) st).
Proof.
  destruct (construct_follows E p st) as (evs & lg & HP & Hev & Hlg & _).
  unfold calls_of, lines_of. by rewrite Hev, Hlg, !drop_app_length.
Qed.

(** X4. When a driver is found and no library call raises, construction
    returns: it has created the engine from the URL that carries the
    descriptor, with [fast_executemany] and [echo] on, then a session bound
    to that engine, then a connection of that engine, in this order; the
    three are stored under three new consecutive handles, and the one line
    logged is "DB Connected!". *)
Theorem construct_succeeds (E : Env) (p : Profile) (st : State) (d : scalar) :
  fault_free E ->
  (find_driver E "SQL Server" st).1 = Ok d ->
  truthy d = true ->
  let n := st_next st in
  (construct E p st).1 = Ok tt /\
  calls_of (construct E p) st =
    [(CreateEngine ("mssql+pyodbc:///?odbc_connect=" +:+ descriptor E p d)
                   true true, Returned (Some n));
     (OpenSession n, Returned (Some (S n)));
     (Connect n, Returned (Some (S (S n))))] /\
  lines_of (construct E p) st = [(INFO, "DB Connected!")] /\
  st_obj (construct E p st).2 =
    <["conn" := VConn (S (S n))]>
      (<["session" := VSession (S n)]>
         (<["engine" := VEngine n]> (profile_attributes E p d))).
Proof.
  intros Hf Hd T n. rewrite find_driver_sql_server in Hd. cbn [fst] in Hd.
  injection Hd as Hd.
  assert (HOk : (construct E p st).1 = Ok tt).
  { unfold construct, init, bind. rewrite find_driver_sql_server, Hd.
    unfold setattr at 1. rewrite T. cbn [negb].
    unfold setattr, try_except_Exception, invoke_new, logger_info. cbn.
    unfold fault_free in Hf. by repeat (rewrite Hf; cbn). }
  pose proof (construct_calls_lines E p st) as HP.
  rewrite HOk, Hd in HP. revert HP.
  generalize (st_obj (construct E p st).2), (calls_of (construct E p) st),
    (lines_of (construct E p) st).
  intros o evs lg HP. by inversion HP.
Qed.

Lemma construct_succeeds_witness :
  fault_free env_two_drivers /\
  (construct env_two_drivers (profile_sales true) fresh_state).1 = Ok tt /\
  lines_of (construct env_two_drivers (profile_sales true)) fresh_state =
    [(INFO, "DB Connected!")].
Proof.
  assert (Hf : fault_free env_two_drivers) by (intros h c; reflexivity).
  split; [exact Hf|].
  destruct (construct_succeeds env_two_drivers (profile_sales true) fresh_state
              (SStr "ODBC Driver 17 for SQL Server") Hf eq_refl eq_refl)
    as (HOk & _ & Hl & _).
  split; [exact HOk | exact Hl].
Defined.

(** X5. When a driver is found and one of the library calls of the [try]
    block raises [e], construction raises that [e] and that call is the last
    one made; the connection error of [e] is logged when [e] is an
    [Exception], and nothing is logged otherwise; nothing is released (no
    [close], no [dispose]), so an engine that was created stays referenced by
    the object; and the object has its profile attributes but never a [conn]
    attribute. *)
Theorem construct_failure_leaves_partial_object
    (E : Env) (p : Profile) (st : State) (d : scalar) (c : call) (e : exn) :
  (find_driver E "SQL Server" st).1 = Ok d ->
  truthy d = true ->
  (c, Raised e) ∈ calls_of (construct E p) st ->
  (construct E p st).1 = Raise e /\
  last (calls_of (construct E p) st) = Some (c, Raised e) /\
  lines_of (construct E p) st =
    (if is_exception e then [connection_error_line e] else []) /\
  count is_release (calls_of (construct E p) st) = 0 /\
  (forall u g, (CreateEngine u true true, Returned (Some g))
                 ∈ calls_of (construct E p) st ->
               st_obj (construct E p st).2 !! "engine" = Some (VEngine g)) /\
  st_obj (construct E p st).2 !! "conn" = None /\
  st_obj (construct E p st).2 !! "params" =
    Some (VScalar (SStr (descriptor E p d))).
Proof.
  intros Hd T Hraised. rewrite find_driver_sql_server in Hd. cbn [fst] in Hd.
  injection Hd as Hd.
  pose proof (construct_calls_lines E p st) as HP.
  rewrite Hd in HP. revert HP Hraised.
  generalize (construct E p st).1, (st_obj (construct E p st).2),
    (calls_of (construct E p) st), (lines_of (construct E p) st).
  intros r o evs lg HP Hraised.
  inversion HP; subst; try congruence; in_cases Hraised.
  all: split_and!; [done | done | done | done | | by simplify_map_eq
                    | by simplify_map_eq].
  all: intros u g Hin;
    repeat (apply elem_of_cons in Hin as [Hin|Hin]; [by simplify_map_eq|]);
    by apply elem_of_nil in Hin.
Qed.

Lemma construct_failure_leaves_partial_object_witness :
  (Connect 0, Raised login_timeout)
    ∈ calls_of (construct env_unreachable (profile_sales false)) fresh_state /\
  (construct env_unreachable (profile_sales false) fresh_state).1 =
    Raise login_timeout /\
  lines_of (construct env_unreachable (profile_sales false)) fresh_state =
    [connection_error_line login_timeout] /\
  st_obj (construct env_unreachable (profile_sales false) fresh_state).2
    !! "conn" = None.
Proof.
  assert (Hcalls :
            calls_of (construct env_unreachable (profile_sales false)) fresh_state =
            [(engine_url env_unreachable (profile_sales false)
                (SStr "ODBC Driver 17 for SQL Server"), Returned (Some 0));
             (OpenSession 0, Returned (Some 1));
             (Connect 0, Raised login_timeout)])
    by reflexivity.
  assert (Hin : (Connect 0, Raised login_timeout)
                  ∈ calls_of (construct env_unreachable (profile_sales false))
                             fresh_state)
    by (rewrite Hcalls; do 2 apply list_elem_of_further; apply list_elem_of_here).
  split; [exact Hin|].
  destruct (construct_failure_leaves_partial_object env_unreachable
              (profile_sales false) fresh_state
              (SStr "ODBC Driver 17 for SQL Server") (Connect 0) login_timeout
              eq_refl eq_refl Hin)
    as (Hr & _ & Hl & _ & _ & Hc & _).
  split; [exact Hr|]. split; [exact Hl | exact Hc].
Defined.

(** ** More on [run_query] and [save_query_df] *)

(** X6. [run_query] and [save_query_df] assign no attribute of the manager,
    whether they return or raise, and they only append to the log and to the
    trace of library calls; [save_query_df] appends nothing to the log. *)
Theorem queries_assign_no_attribute
    (E : Env) (q : string) (commit : bool) (st : State) :
  st_obj (run_query E q commit st).2 = st_obj st /\
  st_obj (save_query_df E q st).2 = st_obj st /\
  st_log st `prefix_of` st_log (run_query E q commit st).2 /\
  st_events st `prefix_of` st_events (run_query E q commit st).2 /\
  st_log (save_query_df E q st).2 = st_log st /\
  st_events st `prefix_of` st_events (save_query_df E q st).2.
Proof.
  destruct (run_query_follows E q commit st)
    as (evs & lg & _ & Hev & Hlg & Ho & _).
  destruct (save_query_df_follows E q st)
    as (evs' & lg' & HP & Hev' & Hlg' & Ho' & _).
  split_and!; [done | done | by exists lg | by exists evs | | by exists evs'].
  rewrite Hlg'. inversion HP; by rewrite app_nil_r.
Qed.

(** X7. [run_query] does not leak its per-call connection and does not
    retry: in every run in which [engine.begin()] handed out a connection,
    that is the first call, the last call is [close] on that connection, and
    the run has exactly one [begin], one [close] and one [execute]. *)
Theorem run_query_closes_its_connection
    (E : Env) (q : string) (commit : bool) (st : State) (g c : handle) :
  (Begin g, Returned (Some c)) ∈ calls_of (run_query E q commit) st ->
  head (calls_of (run_query E q commit) st) = Some (Begin g, Returned (Some c)) /\
  (exists a, last (calls_of (run_query E q commit) st) = Some (Close c, a)) /\
  count is_begin (calls_of (run_query E q commit) st) = 1 /\
  count is_close (calls_of (run_query E q commit) st) = 1 /\
  count is_execute (calls_of (run_query E q commit) st) = 1.
Proof.
  pose proof (run_query_cases E q commit st) as HP. revert HP.
  generalize (run_query E q commit st).1,
    (calls_of (run_query E q commit) st), (lines_of (run_query E q commit) st).
  intros r evs lg HP Hin.
  by_path HP; try destruct commit; cbn in Hin; in_cases Hin;
    split_and!; try done; by eexists.
Qed.

Lemma run_query_closes_its_connection_witness :
  (Begin 0, Returned (Some 3))
    ∈ calls_of (run_query env_bad_sql "SELEC 1" true) rejecting_state /\
  exists a, last (calls_of (run_query env_bad_sql "SELEC 1" true) rejecting_state)
            = Some (Close 3, a).
Proof.
  assert (Hcalls : calls_of (run_query env_bad_sql "SELEC 1" true) rejecting_state =
                   [(Begin 0, Returned (Some 3));
                    (Execute 3 "SELEC 1", Raised syntax_error);
                    (TxRollback 3, Returned None); (Close 3, Returned None)])
    by reflexivity.
  assert (Hin : (Begin 0, Returned (Some 3))
                  ∈ calls_of (run_query env_bad_sql "SELEC 1" true) rejecting_state)
    by (rewrite Hcalls; apply list_elem_of_here).
  split; [exact Hin|].
  apply (run_query_closes_its_connection env_bad_sql "SELEC 1" true
           rejecting_state 0 3 Hin).
Defined.

(** X8. In every run of [run_query] in which the per-call transaction was
    begun, either its commit returned or a rollback was invoked, never both.
    The commit is reached only after the statement was executed; and when the
    commit requested on the session raises, the per-call transaction that ran
    the statement is rolled back, not committed.  A run that returns has
    committed. *)
Theorem run_query_commit_or_rollback
    (E : Env) (q : string) (commit : bool) (st : State) (g c : handle) :
  (Begin g, Returned (Some c)) ∈ calls_of (run_query E q commit) st ->
  let evs := calls_of (run_query E q commit) st in
  rollback_invoked evs = negb (tx_committed evs) /\
  (tx_committed evs = true -> executed evs = true) /\
  (session_commit_raised evs = true -> tx_committed evs = false) /\
  (forall r, (run_query E q commit st).1 = Ok r -> tx_committed evs = true).
Proof.
  pose proof (run_query_cases E q commit st) as HP. revert HP.
  generalize (run_query E q commit st).1,
    (calls_of (run_query E q commit) st), (lines_of (run_query E q commit) st).
  intros r evs lg HP Hin. cbn zeta.
  by_path HP; try destruct commit; cbn in Hin; in_cases Hin;
    split_and!; done.
Qed.

Lemma run_query_commit_or_rollback_witness :
  (Begin 0, Returned (Some 3))
    ∈ calls_of (run_query env_bad_sql "SELEC 1" true) rejecting_state /\
  rollback_invoked (calls_of (run_query env_bad_sql "SELEC 1" true) rejecting_state)
  = negb (tx_committed
            (calls_of (run_query env_bad_sql "SELEC 1" true) rejecting_state)).
Proof.
  assert (Hcalls : calls_of (run_query env_bad_sql "SELEC 1" true) rejecting_state =
                   [(Begin 0, Returned (Some 3));
                    (Execute 3 "SELEC 1", Raised syntax_error);
                    (TxRollback 3, Returned None); (Close 3, Returned None)])
    by reflexivity.
  assert (Hin : (Begin 0, Returned (Some 3))
                  ∈ calls_of (run_query env_bad_sql "SELEC 1" true) rejecting_state)
    by (rewrite Hcalls; apply list_elem_of_here).
  split; [exact Hin|].
  apply (run_query_commit_or_rollback env_bad_sql "SELEC 1" true
           rejecting_state 0 3 Hin).
Defined.

(** X9. On a manager that holds its engine and its session, [run_query]
    swallows no failure and invents none: it returns exactly when every
    library call of the run returned, and when it raises, the exception is
    the one raised by the last library call that raised. *)
Theorem run_query_raises_what_the_library_raised
    (E : Env) (q : string) (commit : bool) (st : State) (g s : handle) :
  st_obj st !! "engine" = Some (VEngine g) ->
  st_obj st !! "session" = Some (VSession s) ->
  match (run_query E q commit st).1 with
  | Ok _ => raised (calls_of (run_query E q commit) st) = []
  | Raise e => last (raised (calls_of (run_query E q commit) st)) = Some e
  end.
Proof.
  intros Hg Hs.
  pose proof (run_query_cases E q commit st) as HP. revert HP.
  generalize (run_query E q commit st).1,
    (calls_of (run_query E q commit) st), (lines_of (run_query E q commit) st).
  intros r evs lg HP.
  by_path HP; try destruct commit; done.
Qed.

Lemma run_query_raises_what_the_library_raised_witness :
  st_obj deadlocked_state !! "engine" = Some (VEngine 0) /\
  st_obj deadlocked_state !! "session" = Some (VSession 1) /\
  (run_query env_bad_commit "SELECT 1" true deadlocked_state).1 = Raise deadlock /\
  last (raised (calls_of (run_query env_bad_commit "SELECT 1" true)
                         deadlocked_state)) = Some deadlock.
Proof.
  split; [reflexivity|]. split; [reflexivity|]. split; [reflexivity|].
  apply (run_query_raises_what_the_library_raised env_bad_commit "SELECT 1"
           true deadlocked_state 0 1 eq_refl eq_refl).
Defined.

(** ** More on [disconnect] and on the life of a manager *)

(** X10. [disconnect] releases in order and stops at the first failure: the
    engine is disposed only after [close] on the connection returned, so when
    [close] raises the engine is never disposed; every run makes at most one
    [close] and one [dispose] and no other call. *)
Theorem disconnect_releases_in_order (E : Env) (st : State) :
  let evs := calls_of (disconnect E) st in
  (forall g a, (Dispose g, a) ∈ evs ->
     exists c, evs = [(Close c, Returned None); (Dispose g, a)]) /\
  (forall c e, (Close c, Raised e) ∈ evs ->
     evs = [(Close c, Raised e)] /\ (disconnect E st).1 = Raise e) /\
  count is_release evs = length evs /\
  length evs <= 2.
Proof.
  pose proof (disconnect_cases E st) as HP. revert HP.
  generalize (disconnect E st).1, (calls_of (disconnect E) st),
    (lines_of (disconnect E) st).
  intros r evs lg HP. cbn zeta.
  inversion HP; subst; split_and!; try (cbn; lia); try done.
  all: try (intros g' a Hin; in_cases Hin; by eexists).
  all: intros c' e' Hin; in_cases Hin; done.
Qed.

(** X11. Nothing records that a manager was disconnected: after a
    [disconnect] that returned, the attributes still hold the closed
    connection and the disposed engine, a later [run_query] still starts by
    asking that engine for a transaction, and a second [disconnect] starts by
    closing the same connection again. *)
Theorem use_after_disconnect_not_prevented
    (E : Env) (q : string) (commit : bool) (st : State) :
  (disconnect E st).1 = Ok tt ->
  exists c g,
    st_obj (disconnect E st).2 !! "conn" = Some (VConn c) /\
    st_obj (disconnect E st).2 !! "engine" = Some (VEngine g) /\
    (exists a, head (calls_of (run_query E q commit) (disconnect E st).2)
               = Some (Begin g, a)) /\
    (exists a, head (calls_of (disconnect E) (disconnect E st).2)
               = Some (Close c, a)).
Proof.
  intros HOk.
  destruct (disconnect_follows E st) as (_ & _ & _ & _ & _ & Ho & _).
  pose proof (disconnect_cases E st) as HP. rewrite HOk in HP.
  inversion HP as [| | | |c g Hc Hg]; subst.
  set (st' := (disconnect E st).2) in *.
  exists c, g. rewrite Ho. split_and!; [done | done | |].
  - pose proof (run_query_cases E q commit st') as HQ. rewrite Ho in HQ.
    revert HQ. generalize (run_query E q commit st').1,
      (calls_of (run_query E q commit) st'),
      (lines_of (run_query E q commit) st').
    intros r evs lg HQ. by_path HQ; by eexists.
  - pose proof (disconnect_cases E st') as HQ. rewrite Ho in HQ.
    revert HQ. generalize (disconnect E st').1,
      (calls_of (disconnect E) st'), (lines_of (disconnect E) st').
    intros r evs lg HQ. by_path HQ; by eexists.
Qed.

Lemma use_after_disconnect_not_prevented_witness :
  (disconnect env_two_drivers connected_state).1 = Ok tt /\
  exists c g,
    st_obj (disconnect env_two_drivers connected_state).2 !! "conn"
      = Some (VConn c) /\
    st_obj (disconnect env_two_drivers connected_state).2 !! "engine"
      = Some (VEngine g) /\
    (exists a, head (calls_of (run_query env_two_drivers "SELECT 1" false)
                              (disconnect env_two_drivers connected_state).2)
               = Some (Begin g, a)) /\
    (exists a, head (calls_of (disconnect env_two_drivers)
                              (disconnect env_two_drivers connected_state).2)
               = Some (Close c, a)).
Proof.
  split; [reflexivity|].
  apply (use_after_disconnect_not_prevented env_two_drivers "SELECT 1" false
           connected_state eq_refl).
Defined.

(** X12. The code raises nothing of its own once a manager is constructed:
    when no library call raises, on a manager that holds its engine, session
    and connection, [run_query] returns (with either flag), [save_query_df]
    returns and [disconnect] returns. *)
Theorem methods_return_when_no_call_raises
    (E : Env) (q : string) (commit : bool) (st : State) :
  fault_free E ->
  ready st ->
  (run_query E q commit st).1 = Ok (S (st_next st)) /\
  (save_query_df E q st).1 = Ok (st_next st) /\
  (disconnect E st).1 = Ok tt.
Proof.
  intros Hf (g & s & c & Hg & Hs & Hc). unfold fault_free in Hf. split_and!.
  - run_simpl. rewrite Hg. run_simpl. rewrite !Hf. run_simpl.
    destruct commit; run_simpl; rewrite ?Hs; run_simpl;
      by repeat (rewrite Hf; run_simpl).
  - run_simpl. rewrite Hg. run_simpl. by rewrite Hf.
  - run_simpl. rewrite Hc. run_simpl. rewrite Hf. run_simpl.
    rewrite Hg. run_simpl. by rewrite Hf.
Qed.

Lemma ready_connected_state : ready connected_state.
Proof. by exists 0, 1, 2. Qed.

Lemma methods_return_when_no_call_raises_witness :
  fault_free env_two_drivers /\ ready connected_state /\
  (run_query env_two_drivers "SELECT 1" true connected_state).1 = Ok 4 /\
  (save_query_df env_two_drivers "SELECT 1" connected_state).1 = Ok 3 /\
  (disconnect env_two_drivers connected_state).1 = Ok tt.
Proof.
  assert (Hf : fault_free env_two_drivers) by (intros h c; reflexivity).
  split; [exact Hf|]. split; [exact ready_connected_state|].
  apply (methods_return_when_no_call_raises env_two_drivers "SELECT 1" true
           connected_state Hf ready_connected_state).
Defined.

(** The calls of a trace that mention neither [c] nor [s]. *)
Lemma bounded_own_handles_unused (n c s : handle) (evs : list event) :
  bounded n evs -> n <= c -> n <= s -> Forall (own_handles_unused c s) evs.
Proof.
  intros Hb Hc Hs. eapply Forall_impl; [exact Hb|].
  intros ev Hev. rewrite Forall_forall in Hev.
  split; intros Hin; apply Hev in Hin; lia.
Qed.

Ltac own_handles :=
  repeat (apply Forall_cons; split;
          [ unfold engine_url;
            split; intros Hin; cbn in Hin;
            repeat (apply elem_of_cons in Hin as [Hin|Hin];
                    [try lia; cbn; eauto|]);
            by apply elem_of_nil in Hin
          | ]);
  apply Forall_nil_2.

(** What holds in every state a caller can observe: the three handles sit in
    a row below the next free one, and the trace mentions the connection and
    the session only where they were opened, closed or committed. *)
Lemma reachable_own_handles (E : Env) (st : State) :
  reachable E st ->
  exists n, layout n st /\
            Forall (own_handles_unused (S (S n)) (S n)) (st_events st).
Proof.
  induction 1 as [p st Hwf HOk | r st Hreach (n & (Hg & Hs & Hc & Hn) & IH)].
  - destruct (construct_returns E p st HOk) as (Hg & Hs & Hc & Hcalls & Hn & _).
    destruct (construct_follows E p st) as (evs & lg & _ & Hev & _).
    assert (evs = calls_of (construct E p) st) as ->
      by (unfold calls_of; by rewrite Hev, drop_app_length).
    exists (st_next st). split; [split_and!; try done; lia|].
    rewrite Hev, Hcalls. apply Forall_app. split.
    + destruct Hwf as [_ Hold].
      eapply bounded_own_handles_unused; [exact Hold | lia | lia].
    + own_handles.
  - exists n.
    destruct r as [q commit | q |]; cbn [perform].
    + destruct (run_query_follows E q commit st)
        as (evs & lg & HP & Hev & _ & Ho & Hnext).
      split; [unfold layout; rewrite Ho, Hnext; split_and!; try done; lia|].
      rewrite Hev. apply Forall_app. split; [done|].
      destruct commit; by_path HP; cbn [commit_events app]; own_handles.
    + destruct (save_query_df_follows E q st)
        as (evs & lg & HP & Hev & _ & Ho & Hnext).
      split; [unfold layout; rewrite Ho, Hnext; split_and!; try done; lia|].
      rewrite Hev. apply Forall_app. split; [done|].
      by_path HP; own_handles.
    + destruct (disconnect_follows E st)
        as (evs & lg & HP & Hev & _ & Ho & Hnext).
      split; [unfold layout; rewrite Ho, Hnext; split_and!; try done; lia|].
      rewrite Hev. apply Forall_app. split; [done|].
      by_path HP; own_handles.
Qed.

(** X13. Over the whole life of a manager, the connection opened at
    construction is never used to run anything: the only calls that mention
    it are the one that opened it and [close].  The session opened at
    construction is never used either: the only calls that mention it are the
    one that opened it and [commit]; in particular no statement is ever
    executed on them and the session is never closed. *)
Theorem own_connection_and_session_unused
    (E : Env) (st : State) (c s : handle) :
  reachable E st ->
  st_obj st !! "conn" = Some (VConn c) ->
  st_obj st !! "session" = Some (VSession s) ->
  Forall (own_handles_unused c s) (st_events st) /\
  Forall (fun ev : event =>
            forall q, ev.1 <> Execute c q /\ ev.1 <> Execute s q /\
                      ev.1 <> SessionClose s) (st_events st).
Proof.
  intros Hreach Hc Hs.
  destruct (reachable_own_handles E st Hreach) as (n & (_ & Hs' & Hc' & _) & H).
  rewrite Hc' in Hc. rewrite Hs' in Hs. simplify_eq.
  split; [done|].
  eapply Forall_impl; [exact H|].
  intros [call a] [Hconn Hsess] q. cbn [fst] in *. split_and!; intros ->.
  - destruct Hconn as [?|[g ?]]; [by apply list_elem_of_here | done..].
  - destruct Hsess as [?|[g ?]]; [by apply list_elem_of_here | done..].
  - destruct Hsess as [?|[g ?]]; [by apply list_elem_of_here | done..].
Qed.

Lemma reachable_disconnected_state : reachable env_two_drivers disconnected_state.
Proof. do 2 apply reach_perform. apply reachable_connected_state. Qed.

Lemma own_connection_and_session_unused_witness :
  reachable env_two_drivers disconnected_state /\
  st_obj disconnected_state !! "conn" = Some (VConn 2) /\
  st_obj disconnected_state !! "session" = Some (VSession 1) /\
  Forall (own_handles_unused 2 1) (st_events disconnected_state).
Proof.
  split; [exact reachable_disconnected_state|].
  split; [reflexivity|]. split; [reflexivity|].
  apply (own_connection_and_session_unused env_two_drivers disconnected_state
           2 1 reachable_disconnected_state eq_refl eq_refl).
Defined.
